(** * publications.py: the bibliography-to-listing pipeline

    A shallow embedding of [create_pub_listing] (src/publications.py) and
    the properties its specification states about it.

    Conventions of the embedding.
    - A Python [str] is a [string]; a character is a code point below 256
      (type [ascii]), so the texts covered are the Latin-1 ones.
    - A Python [int] is a [Z]; [len] and list positions are [nat] and are
      injected into [Z] where the source computes with them.
    - A Python list is a [list]; [l[i] = v] is stdpp's [<[i:=v]> l].
    - The local variable [publisher] may be unbound: it is an [option].
    - The external formatter (pandoc) is a function from the content of the
      file it is pointed at to a completed process.
    - Scratch files live in a finite map from paths to contents. *)

From Stdlib Require Import ZArith Lia Ascii DecimalString.
From stdpp Require Import list strings gmap.

Local Open Scope Z_scope.

(** ** Python string primitives *)

Module Py.

Definition LF : ascii := "010"%char.
Definition CR : ascii := "013"%char.

(** [str.isspace] on one code point below 256. *)
Definition isspace (c : ascii) : bool :=
  let n := N_of_ascii c in
  ((9 <=? n) && (n <=? 13) || (28 <=? n) && (n <=? 32)
   || (n =? 133) || (n =? 160))%N.

(** The line boundaries of [str.splitlines] below 256 (CR LF apart). *)
Definition islinebreak (c : ascii) : bool :=
  let n := N_of_ascii c in
  ((10 <=? n) && (n <=? 13) || (28 <=? n) && (n <=? 30) || (n =? 133))%N.

Fixpoint lstrip (s : string) : string :=
  match s with
  | String c s' => if isspace c then lstrip s' else s
  | EmptyString => EmptyString
  end.

Fixpoint rstrip (s : string) : string :=
  match s with
  | String c s' =>
      match rstrip s' with
      | EmptyString => if isspace c then EmptyString else String c EmptyString
      | r => String c r
      end
  | EmptyString => EmptyString
  end.

(** [s.strip()] *)
Definition strip (s : string) : string := rstrip (lstrip s).

(** [s.startswith(p)] *)
Definition startswith (p s : string) : bool := String.prefix p s.

(** [p in s] on strings *)
Fixpoint contains (p s : string) : bool :=
  startswith p s ||
  match s with
  | String _ s' => contains p s'
  | EmptyString => false
  end.

(** [s[n:]] *)
Fixpoint skip (n : nat) (s : string) : string :=
  match n, s with
  | S n', String _ s' => skip n' s'
  | _, _ => s
  end.

(** [s.partition(sep)] when [sep] occurs in [s]: the text before its
    first occurrence and the text after it. *)
Fixpoint cut (sep s : string) : option (string * string) :=
  if startswith sep s then Some (EmptyString, skip (String.length sep) s)
  else match s with
       | String c s' =>
           match cut sep s' with
           | Some (b, a) => Some (String c b, a)
           | None => None
           end
       | EmptyString => None
       end.

(** [s.split(sep, 1)[1]]; [None] is the IndexError of a [sep] that does
    not occur. *)
Definition split1_snd (sep s : string) : option string :=
  snd <$> cut sep s.

(** [s.split(sep)] for a non-empty [sep]: cut at every occurrence, left
    to right.  Each cut shortens the text, so [String.length s] rounds
    are enough (lemma [split_unfold]). *)
Fixpoint split_go (fuel : nat) (sep s : string) : list string :=
  match fuel with
  | O => [s]
  | S fuel' =>
      match cut sep s with
      | Some (b, a) => b :: split_go fuel' sep a
      | None => [s]
      end
  end.

Definition split (sep s : string) : list string :=
  split_go (String.length s) sep s.

(** [s.splitlines()] *)
Fixpoint splitlines (s : string) : list string :=
  match s with
  | EmptyString => []
  | String c rest =>
      if islinebreak c then
        match Ascii.eqb c CR, rest with
        | true, String c' rest' =>
            if Ascii.eqb c' LF then EmptyString :: splitlines rest'
            else EmptyString :: splitlines rest
        | _, _ => EmptyString :: splitlines rest
        end
      else
        match splitlines rest with
        | l :: ls => String c l :: ls
        | [] => [String c EmptyString]
        end
  end.

(** [sep.join(l)] *)
Fixpoint join (sep : string) (l : list string) : string :=
  match l with
  | [] => EmptyString
  | [x] => x
  | x :: l' => x +:+ sep +:+ join sep l'
  end.

(** [str(n)] on an int *)
Definition str (n : Z) : string := NilZero.string_of_int (Z.to_int n).

(** [len(l)] *)
Definition len {A} (l : list A) : Z := Z.of_nat (length l).

(** [l.index(x)]; [None] is the ValueError of an [x] that is not in [l]. *)
Fixpoint index (x : string) (l : list string) : option nat :=
  match l with
  | [] => None
  | y :: l' => if String.eqb y x then Some O else S <$> index x l'
  end.

(** [l[3:-2]] *)
Definition slice_3_m2 {A} (l : list A) : list A :=
  drop 3 (take (length l - 2)%nat l).

End Py.

(** ** Exceptions and results *)

(** The exceptions the function meets.  [UnboundLocalError] is Python's
    subclass of NameError for a local variable read before assignment. *)
Inductive exn :=
| CalledProcessError (returncode : Z) (stderr : string)
| UnboundLocalError (name : string)
| IndexError.

Inductive result (A : Type) :=
| Ok (a : A)
| Raise (e : exn).
Arguments Ok {A} a.
Arguments Raise {A} e.

#[global] Instance result_ret : MRet result := λ A a, Ok a.
#[global] Instance result_bind : MBind result := λ A B f m,
  match m with
  | Ok a => f a
  | Raise e => Raise e
  end.
#[global] Instance result_fmap : FMap result := λ A B f m,
  match m with
  | Ok a => Ok (f a)
  | Raise e => Raise e
  end.

(** Truth value of a [str]: the empty string is false. *)
Definition truthy (s : string) : bool := negb (String.eqb s "").

(** ** The entry splitter (lines 29-42) *)

(** The separator ['\n@']. *)
Definition entry_sep : string := String Py.LF "@".

(** [for entry_part in entries_str[1:]: if entry_part.strip(): ...] *)
Fixpoint append_parts (parts bib_entries : list string) : list string :=
  match parts with
  | [] => bib_entries
  | entry_part :: parts' =>
      append_parts parts'
        (if truthy (Py.strip entry_part)
         then bib_entries ++ ["@" +:+ entry_part]
         else bib_entries)
  end.

Definition split_entries (bib_content : string) : list string :=
  let entries_str := Py.split entry_sep (Py.strip bib_content) in
  match entries_str with
  | [] => []
  | e0 :: parts =>
      let first_entry := Py.strip e0 in
      let first_entry :=
        if truthy first_entry && negb (Py.startswith "@" first_entry)
        then "@" +:+ first_entry else first_entry in
      let bib_entries := if truthy first_entry then [first_entry] else [] in
      append_parts parts bib_entries
  end.

(** ** The field extractor (lines 62-89) *)

(** The variables the scan of one entry reads and writes.  [publisher] is
    the one that line 67 does not reset: it enters the scan with the value
    the previous entries left, [None] while it has never been assigned. *)
Record locals := Locals {
  authors : list string;
  publisher : option string;
  container_title : string;
  issued_date : string;
  doi : string;
  url : string;
  article_lines : list string
}.

Definition set_authors (v : list string) (l : locals) : locals :=
  Locals v (publisher l) (container_title l) (issued_date l) (doi l) (url l)
         (article_lines l).
Definition set_publisher (v : string) (l : locals) : locals :=
  Locals (authors l) (Some v) (container_title l) (issued_date l) (doi l)
         (url l) (article_lines l).
Definition set_container_title (v : string) (l : locals) : locals :=
  Locals (authors l) (publisher l) v (issued_date l) (doi l) (url l)
         (article_lines l).
Definition set_issued_date (v : string) (l : locals) : locals :=
  Locals (authors l) (publisher l) (container_title l) v (doi l) (url l)
         (article_lines l).
Definition set_doi (v : string) (l : locals) : locals :=
  Locals (authors l) (publisher l) (container_title l) (issued_date l) v
         (url l) (article_lines l).
Definition set_url (v : string) (l : locals) : locals :=
  Locals (authors l) (publisher l) (container_title l) (issued_date l)
         (doi l) v (article_lines l).
Definition set_line (idx : nat) (v : string) (l : locals) : locals :=
  Locals (authors l) (publisher l) (container_title l) (issued_date l)
         (doi l) (url l) (<[idx := v]> (article_lines l)).

(** [line.split(sep, 1)[1].strip()] *)
Definition value_after (sep line : string) : result string :=
  match Py.split1_snd sep line with
  | Some v => Ok (Py.strip v)
  | None => Raise IndexError
  end.

(** [line.strip().startswith(key)] *)
Definition is_field (key line : string) : bool :=
  Py.startswith key (Py.strip line).

(** The body of the loop over [enumerate(article_lines)]. *)
Definition scan_line (idx : nat) (line : string) (l : locals) : result locals :=
  if Py.contains "- family:" line then
    family_name ← value_after "family:" line;
    Ok (set_authors (authors l ++ [family_name]) l)
  else if is_field "publisher:" line then
    v ← value_after ":" line; Ok (set_publisher v l)
  else if is_field "container-title:" line then
    v ← value_after ":" line; Ok (set_container_title v l)
  else if is_field "issued:" line then
    v ← value_after ":" line; Ok (set_issued_date v l)
  else if is_field "doi:" line then
    v ← value_after ":" line; Ok (set_doi v l)
  else if is_field "url:" line then
    v ← value_after ":" line; Ok (set_url v l)
  else if is_field "type:" line then
    bib_type ← value_after ":" line;
    if String.eqb bib_type "book" then
      let l := set_line idx "  type: conference" l in
      match publisher l with
      | Some p => Ok (set_container_title p l)
      | None => Raise (UnboundLocalError "publisher")
      end
    else if String.eqb bib_type "article-journal" then
      Ok (set_line idx "  type: journal" l)
    else Ok l
  else Ok l.

(** The loop itself.  The iterator reads the list that the body writes:
    round [idx] fetches [article_lines[idx]] from the current list and
    stops when [idx] is past its end; [n] bounds the rounds by the length
    of the list, which no round changes. *)
Fixpoint for_lines (n idx : nat) (l : locals) : result locals :=
  match n with
  | O => Ok l
  | S n' =>
      match article_lines l !! idx with
      | Some line => l' ← scan_line idx line l; for_lines n' (S idx) l'
      | None => Ok l
      end
  end.

(** Lines 65-89: reset the per-entry variables, then scan. *)
Definition scan (lines : list string) (pub : option string) : result locals :=
  for_lines (length lines) 0 (Locals [] pub "" "" "" "" lines).

(** ** The author-rank calculator (lines 90-97) *)

(** The text between the quotes of the position line. *)
Definition rank (author : string) (authors : list string) : string :=
  match Py.index author authors with
  | Some i => Py.str (Z.of_nat i + 1) +:+ "/" +:+ Py.str (Py.len authors)
  | None => "N/A/" +:+ Py.str (Py.len authors)
  end.

Definition position_line (author : string) (authors : list string) : string :=
  "  position: '" +:+ rank author authors +:+ "'".

(** [first_author_count] after the try block of lines 90-97. *)
Definition count_first (author : string) (authors : list string)
    (first_author_count : Z) : Z :=
  match Py.index author authors with
  | Some i =>
      if Z.of_nat i + 1 =? 1 then first_author_count + 1
      else first_author_count
  | None => first_author_count
  end.

(** ** Normalised lines of one entry (lines 103-113) *)

Definition type_title_line (l : locals) : list string :=
  if truthy (container_title l)
  then ["  type-title: '*" +:+ container_title l +:+ "*'"] else [].
Definition date_line (l : locals) : list string :=
  if truthy (issued_date l) then ["  date: " +:+ issued_date l] else [].
Definition doi_line (l : locals) : list string :=
  if truthy (doi l) then ["  path: https://doi.org/" +:+ doi l] else [].
Definition url_line (l : locals) : list string :=
  if truthy (url l) then ["  path: " +:+ url l] else [].

(** What one rendered entry appends to [all_articles_yaml_lines]. *)
Definition entry_group (author : string) (l : locals) : list string :=
  article_lines l ++ type_title_line l ++ date_line l ++ doi_line l
    ++ url_line l ++ [position_line author (authors l)].

(** ** The run: renderer, accumulation and the two documents *)

(** What [subprocess.run(..., capture_output=True, text=True)] returns. *)
Record completed_process := Completed {
  returncode : Z;
  stdout : string;
  stderr : string
}.

(** What the function prints. *)
Inductive message :=
| MsgInputNotFound
| MsgHere
| MsgPandocFailed (stderr : string)
| MsgSuccess.

(** The variables that live across entries, and the world around them:
    the scratch directory (path to content) and the console. *)
Record state := State {
  all_articles_yaml_lines : list string;
  first_author_count : Z;
  publisher_var : option string;
  scratch : gmap nat string;
  console : list message
}.

Definition set_scratch (fs : gmap nat string) (s : state) : state :=
  State (all_articles_yaml_lines s) (first_author_count s) (publisher_var s)
        fs (console s).
Definition print (m : message) (s : state) : state :=
  State (all_articles_yaml_lines s) (first_author_count s) (publisher_var s)
        (scratch s) (console s ++ [m]).

(** The outcome of the whole function. *)
Inductive run :=
| NoInput (console : list message)
| Finished (yml qmd : string) (s : state)
| Crashed (e : exn) (s : state).

Definition unlines (l : list string) : string :=
  foldr (λ x acc, x +:+ String Py.LF acc) "" l.

(** The f-string of lines 131-151. *)
Definition qmd_template (title_counts yml_name : string) : string :=
  unlines [
    "---";
    "title: 'Publications (" +:+ title_counts +:+ ")'";
    "title-block-banner: true";
    "date-format: 'MMMM,<br>YYYY'";
    "listing:";
    "  contents:";
    "    - " +:+ yml_name;
    "  page-size: 10";
    "  sort: 'date desc'";
    "  type: table";
    "  categories: false";
    "  sort-ui: [date, title, type, type-title, position]";
    "  filter-ui: [date, title, type, type-title]";
    "  fields: [date, title, type, type-title, position]";
    "  field-display-names:";
    "    date: Date";
    "    type: Type";
    "    type-title: Type Name";
    "    position: Rank";
    "---" ].

Section Pipeline.

(** The formatter, as a function of the content of the file it is given
    ([None]: no such file), and the target author. *)
Variable pandoc : option string → completed_process.
Variable author : string.

(** [subprocess.run([...], check=True)] on the scratch file. *)
Definition subprocess_run (temp_bib_path : nat) (s : state)
    : result completed_process :=
  let r := pandoc (scratch s !! temp_bib_path) in
  if returncode r =? 0 then Ok r
  else Raise (CalledProcessError (returncode r) (stderr r)).

(** The try block, lines 55-114.  When the scan raises, the state keeps
    the binding [publisher] had before the entry: the exception is not
    caught anywhere, so no later code reads the variables. *)
Definition try_body (temp_bib_path : nat) (s : state)
    : result unit * state :=
  match subprocess_run temp_bib_path s with
  | Raise e => (Raise e, s)
  | Ok res =>
      let pandoc_output_lines := Py.splitlines (stdout res) in
      match scan (Py.slice_3_m2 pandoc_output_lines) (publisher_var s) with
      | Raise e => (Raise e, s)
      | Ok l =>
          let s :=
            if bool_decide ("type:" ∈ article_lines l)
            then print MsgHere s else s in
          (Ok (),
           State (all_articles_yaml_lines s ++ entry_group author l)
                 (count_first author (authors l) (first_author_count s))
                 (publisher l) (scratch s) (console s))
      end
  end.

(** One round of the loop over [bib_entries], lines 48-120: create the
    scratch file, try, except CalledProcessError, finally unlink. *)
Definition process_entry (entry_str : string) (s : state)
    : result unit * state :=
  let temp_bib_path := fresh (dom (scratch s)) in
  let s := set_scratch (<[temp_bib_path := entry_str]> (scratch s)) s in
  let '(r, s) := try_body temp_bib_path s in
  let '(r, s) :=
    match r with
    | Raise (CalledProcessError _ err) =>
        (Ok (), print (MsgPandocFailed err) s)
    | _ => (r, s)
    end in
  (r, set_scratch (delete temp_bib_path (scratch s)) s).

Fixpoint for_entries (bib_entries : list string) (s : state)
    : result unit * state :=
  match bib_entries with
  | [] => (Ok (), s)
  | entry_str :: rest =>
      match process_entry entry_str s with
      | (Ok _, s') => for_entries rest s'
      | (Raise e, s') => (Raise e, s')
      end
  end.

Definition title_counts (first_author_count total_articles : Z) : string :=
  Py.str first_author_count +:+ " + "
    +:+ Py.str (total_articles - first_author_count).

(** The function.  [bib] is the content of the input file ([None]: the
    file does not exist), [yml_name] the name of the data file and [tmp]
    the scratch directory as the run finds it. *)
Definition create_pub_listing (bib : option string) (yml_name : string)
    (tmp : gmap nat string) : run :=
  match bib with
  | None => NoInput [MsgInputNotFound]
  | Some bib_content =>
      let bib_entries := split_entries bib_content in
      match for_entries bib_entries (State [] 0 None tmp []) with
      | (Raise e, s) => Crashed e s
      | (Ok _, s) =>
          let yml :=
            Py.join (String Py.LF "") (all_articles_yaml_lines s)
              +:+ String Py.LF "" in
          let total_articles := Py.len bib_entries in
          Finished yml
            (qmd_template
               (title_counts (first_author_count s) total_articles)
               yml_name)
            (print MsgSuccess s)
      end
  end.

End Pipeline.

(** * Specification-side vocabulary

    Definitions that follow the words of the specification; the theorems
    compare them with the code above. *)

(** A text made of whitespace only. *)
Fixpoint blank (s : string) : bool :=
  match s with
  | String c s' => Py.isspace c && blank s'
  | EmptyString => true
  end.

(** The branch of the loop body a line falls into. *)
Inductive kind :=
| KFamily | KPublisher | KContainerTitle | KIssued | KDoi | KUrl | KType
| KOther.

#[global] Instance kind_eq_dec : EqDecision kind.
Proof. solve_decision. Defined.

Definition line_kind (line : string) : kind :=
  if Py.contains "- family:" line then KFamily
  else if is_field "publisher:" line then KPublisher
  else if is_field "container-title:" line then KContainerTitle
  else if is_field "issued:" line then KIssued
  else if is_field "doi:" line then KDoi
  else if is_field "url:" line then KUrl
  else if is_field "type:" line then KType
  else KOther.

(** The value a line carries: the text after [sep], stripped. *)
Definition value_of (sep line : string) : string :=
  match Py.split1_snd sep line with
  | Some v => Py.strip v
  | None => ""
  end.

(** The category a line declares, if it is a category line. *)
Definition declared_category (line : string) : option string :=
  if decide (line_kind line = KType) then Some (value_of ":" line) else None.

(** Category normalisation of one line, in the specification's words. *)
Definition normalize_line (line : string) : string :=
  match declared_category line with
  | Some c =>
      if String.eqb c "book" then "  type: conference"
      else if String.eqb c "article-journal" then "  type: journal"
      else line
  | None => line
  end.

(** The value of the field [k] in an entry's lines: the last line of that
    kind wins; [d] when there is none. *)
Definition last_value (k : kind) (lines : list string) (d : string) : string :=
  foldl (λ v line, if decide (line_kind line = k) then value_of ":" line else v)
        d lines.

(** The publisher in force after some lines. *)
Definition publisher_after (lines : list string) (pub : option string)
    : option string :=
  foldl (λ p line,
           if decide (line_kind line = KPublisher)
           then Some (value_of ":" line) else p)
        pub lines.

(** The family names of an entry's lines, in order. *)
Definition families (lines : list string) : list string :=
  omap (λ line, if decide (line_kind line = KFamily)
                then Some (value_of "family:" line) else None) lines.

(** A line that declares the category "book". *)
Definition book_line (line : string) : bool :=
  bool_decide (declared_category line = Some "book").

(** The loop over the lines, read from a snapshot of the list instead of
    the list under mutation (lemma [for_lines_scan_list] shows that the two
    agree). *)
Fixpoint scan_list (idx : nat) (lines : list string) (l : locals)
    : result locals :=
  match lines with
  | [] => Ok l
  | line :: rest => l' ← scan_line idx line l; scan_list (S idx) rest l'
  end.

(** The lines of an entry that reach the scan: the formatter's output
    without its three framing lines at the head and two at the tail. *)
Definition entry_lines (pandoc : option string → completed_process)
    (entry_str : string) : list string :=
  Py.slice_3_m2 (Py.splitlines (stdout (pandoc (Some entry_str)))).

(** The formatter exits with status zero on the entry. *)
Definition rendered (pandoc : option string → completed_process)
    (entry_str : string) : bool :=
  returncode (pandoc (Some entry_str)) =? 0.

(** The entries whose renderer invocation failed. *)
Definition failures (pandoc : option string → completed_process)
    (bib_entries : list string) : list string :=
  filter (λ e, rendered pandoc e = false) bib_entries.

(** The entry is rendered and its output lists the target author first. *)
Definition first_rendered (pandoc : option string → completed_process)
    (author entry_str : string) : bool :=
  rendered pandoc entry_str
  && bool_decide (head (families (entry_lines pandoc entry_str)) = Some author).


(** Link resolution in the specification's words: the resolver link of the
    identifier when there is one, then the explicit link when there is
    one. *)
Definition link_lines (identifier link : string) : list string :=
  match truthy identifier, truthy link with
  | true, true => ["  path: https://doi.org/" +:+ identifier; "  path: " +:+ link]
  | true, false => ["  path: https://doi.org/" +:+ identifier]
  | false, true => ["  path: " +:+ link]
  | false, false => []
  end.

(** The first fragment of the split text: stripped, dropped when nothing
    is left, and given the marker unless it carries it. *)
Definition restore_first (fragment : string) : option string :=
  let f := Py.strip fragment in
  if blank fragment then None
  else Some (if Py.startswith "@" f then f else "@" +:+ f).

(** The splitter in the specification's words, on the fragments of the
    stripped text. *)
Definition entries_of_fragments (fragments : list string) : list string :=
  omap restore_first (take 1 fragments)
  ++ map (λ f, "@" +:+ f) (filter (λ f, blank f = false) (drop 1 fragments)).

(** The splitter's rule on empty trailing fragments as the specification
    words it: a text whose last fragment, after the first, is empty still
    yields its entry, the bare marker. *)
Definition keeps_empty_trailing_fragment (text : string) : Prop :=
  let fragments := Py.split entry_sep (Py.strip text) in
  (1 < length fragments)%nat → last fragments = Some "" →
  last (split_entries text) = Some "@".

(** The rule on absent fields as the specification words it: a field that
    no line of the formatter's output carries leaves no line in the
    entry's record. *)
Definition omits_absent_fields (lines : list string) (pub : option string)
    : Prop :=
  ∀ l, scan lines pub = Ok l →
    (Forall (λ x, line_kind x ≠ KContainerTitle) lines → type_title_line l = [])
    ∧ (Forall (λ x, line_kind x ≠ KIssued) lines → date_line l = [])
    ∧ (Forall (λ x, line_kind x ≠ KDoi) lines → doi_line l = [])
    ∧ (Forall (λ x, line_kind x ≠ KUrl) lines → url_line l = []).

(** The title statistic as the specification words it.  [first_listed]
    tells of every entry whether the target author is first-listed in it;
    on the entries the formatter renders it agrees with the formatter's
    output.  Over N entries of which k are first-listed, the title shows
    "k + (N-k)". *)
Definition title_statistic_as_stated
    (pandoc : option string → completed_process)
    (first_listed : string → bool) (author bib yml_name : string)
    (tmp : gmap nat string) : Prop :=
  (∀ e, rendered pandoc e = true →
        first_listed e
        = bool_decide (head (families (entry_lines pandoc e)) = Some author)) →
  ∀ yml qmd s,
    create_pub_listing pandoc author (Some bib) yml_name tmp
    = Finished yml qmd s →
    let N := length (split_entries bib) in
    let k := length (filter (λ e, first_listed e = true) (split_entries bib)) in
    qmd = qmd_template (title_counts (Z.of_nat k) (Z.of_nat N)) yml_name.

(** * Sample bibliographies and a sample formatter

    Concrete inputs on which the theorems below are exercised.  The sample
    formatter answers four known entries the way pandoc answers
    [--standalone --from=bibtex --to=markdown], and fails on anything
    else. *)

Module Sample.

Definition dq : string := String "034"%char "".

(** The formatter's document around the lines of one entry. *)
Definition framed (entry_lines : list string) : string :=
  unlines (["---"; "nocite: " +:+ dq +:+ "[@*]" +:+ dq; "references:"]
           ++ entry_lines ++ ["---"; ""]).

Definition e_journal : string :=
  "@article{s20, author = {Smith, J. and Stephens, D.}, title = {Tides}, journal = {J. Mar. Sci.}, year = {2020}, doi = {10.1000/j.1}, url = {https://example.org/tides}}".
Definition e_first : string :=
  "@article{s21, author = {Stephens, D. and Lee, K.}, title = {Waves}, journal = {Ocean Lett.}, year = {2021}}".
Definition e_book_acm : string :=
  "@book{l18, author = {Lee, K.}, title = {Sensing}, publisher = {ACM}, year = {2018}}".
Definition e_book_nopub : string :=
  "@book{s19, author = {Stephens, D.}, title = {Notes}, year = {2019}}".
(** An entry the formatter rejects (a comma is missing). *)
Definition e_broken : string :=
  "@article{s22, author = {Stephens, D.} title = {Drift}}".

Definition lines_journal : list string :=
  [ "- author:"; "  - family: Smith"; "    given: J.";
    "  - family: Stephens"; "    given: D.";
    "  container-title: J. Mar. Sci."; "  doi: 10.1000/j.1"; "  id: s20";
    "  issued: 2020"; "  title: Tides"; "  type: article-journal";
    "  url: https://example.org/tides" ].
Definition lines_first : list string :=
  [ "- author:"; "  - family: Stephens"; "    given: D.";
    "  - family: Lee"; "    given: K.";
    "  container-title: Ocean Lett."; "  id: s21"; "  issued: 2021";
    "  title: Waves"; "  type: article-journal" ].
Definition lines_book_acm : list string :=
  [ "- author:"; "  - family: Lee"; "    given: K."; "  id: l18";
    "  issued: 2018"; "  publisher: ACM"; "  title: Sensing";
    "  type: book" ].
Definition lines_book_nopub : list string :=
  [ "- author:"; "  - family: Stephens"; "    given: D."; "  id: s19";
    "  issued: 2019"; "  title: Notes"; "  type: book" ].

Definition pandoc (file : option string) : completed_process :=
  match file with
  | None => Completed 1 "" "pandoc: withBinaryFile: does not exist"
  | Some content =>
      let e := Py.strip content in
      if String.eqb e e_journal then Completed 0 (framed lines_journal) ""
      else if String.eqb e e_first then Completed 0 (framed lines_first) ""
      else if String.eqb e e_book_acm
      then Completed 0 (framed lines_book_acm) ""
      else if String.eqb e e_book_nopub
      then Completed 0 (framed lines_book_nopub) ""
      else Completed 64 "" "Error at (line 1, column 40): unexpected t"
  end.

(** Entries one to a paragraph, as in a bibliography file. *)
Definition bib (entries : list string) : string :=
  Py.join (String Py.LF (String Py.LF "")) entries +:+ String Py.LF "".

(** A bibliography that ends in a stray marker. *)
Definition bib_stray : string := e_first +:+ String Py.LF "@".

(** Whether the text of an entry, less the whitespace around it, opens
    its author field with [author]. *)
Definition lists_first (author entry_str : string) : bool :=
  Py.contains ("author = {" +:+ author) (Py.strip entry_str).

Definition listing (entries : list string) : run :=
  create_pub_listing pandoc "Stephens" (Some (bib entries))
    "publications.yml" ∅.

Definition yml_of (r : run) : option (list string) :=
  match r with
  | Finished yml _ _ => Some (Py.splitlines yml)
  | _ => None
  end.

Definition title_of (r : run) : option string :=
  match r with
  | Finished _ qmd _ => Py.splitlines qmd !! 1%nat
  | _ => None
  end.

End Sample.

(** * The script's entry point, and more vocabulary *)

(** What the entry point prints on its own (lines 164-165). *)
Inductive main_message :=
| MsgPandocMissing
| MsgInstallHint.

(** Lines 158-165.  [version] is what [pandoc --version] comes to: [None]
    when the executable is not found (FileNotFoundError).  The handler
    catches CalledProcessError and FileNotFoundError, whether they come
    from the version check or from [create_pub_listing]; any other
    exception leaves the script.  The result is the run of
    [create_pub_listing], if it was started, and what the handler
    printed.  The data file of "publications.bib" is "publications.yml". *)
Definition main (version : option completed_process)
    (pandoc : option string → completed_process) (bib : option string)
    (tmp : gmap nat string) : option run * list main_message :=
  match version with
  | None => (None, [MsgPandocMissing; MsgInstallHint])
  | Some v =>
      if returncode v =? 0 then
        let r := create_pub_listing pandoc "Stephens" bib
                   "publications.yml" tmp in
        match r with
        | Crashed (CalledProcessError _ _) _ =>
            (Some r, [MsgPandocMissing; MsgInstallHint])
        | _ => (Some r, [])
        end
      else (None, [MsgPandocMissing; MsgInstallHint])
  end.

(** A text with no line boundary in it. *)
Fixpoint nobreak (s : string) : bool :=
  match s with
  | String c s' => negb (Py.islinebreak c) && nobreak s'
  | EmptyString => true
  end.

(** The warning of a skipped entry. *)
Definition is_warning (m : message) : bool :=
  match m with
  | MsgPandocFailed _ => true
  | _ => false
  end.

(** The record of an entry that declares no "book", in terms of its lines
    alone: the lines with the category normalised, the venue title, the
    date, the links and the position. *)
Definition record_of (author : string) (lines : list string) : list string :=
  let venue := last_value KContainerTitle lines "" in
  let date := last_value KIssued lines "" in
  map normalize_line lines
  ++ (if truthy venue then ["  type-title: '*" +:+ venue +:+ "*'"] else [])
  ++ (if truthy date then ["  date: " +:+ date] else [])
  ++ link_lines (last_value KDoi lines "") (last_value KUrl lines "")
  ++ [position_line author (families lines)].

(** Every "book" line of the entry comes after a publisher line of the
    same entry. *)
Definition books_have_publisher (lines : list string) : Prop :=
  ∀ pre tl post,
    lines = pre ++ tl :: post → book_line tl = true →
    Exists (λ x, line_kind x = KPublisher) pre.

(** A formatter that exits with status zero and writes nothing. *)
Definition silent_pandoc (file : option string) : completed_process :=
  Completed 0 "" "".

(** The variables of a scan hold no line boundary. *)
Definition locals_nobreak (l : locals) : Prop :=
  Forall (λ x, nobreak x = true) (authors l)
  ∧ (∀ p, publisher l = Some p → nobreak p = true)
  ∧ nobreak (container_title l) = true
  ∧ nobreak (issued_date l) = true
  ∧ nobreak (doi l) = true
  ∧ nobreak (url l) = true
  ∧ Forall (λ x, nobreak x = true) (article_lines l).

(** * Facts about the string primitives *)

#[local] Arguments String.append : simpl nomatch.
#[local] Arguments Py.startswith : simpl never.

Section StringFacts.

Implicit Types s t u v p : string.

Lemma sapp_nil_r s : s +:+ "" = s.
Proof. induction s as [|c s IH]; simpl; [done | by rewrite IH]. Qed.

Lemma sapp_assoc s t u : (s +:+ t) +:+ u = s +:+ t +:+ u.
Proof. induction s as [|c s IH]; simpl; [done | by rewrite IH]. Qed.

Lemma sapp_length s t :
  String.length (s +:+ t) = (String.length s + String.length t)%nat.
Proof. induction s as [|c s IH]; simpl; [done | by rewrite IH]. Qed.

Lemma startswith_nil s : Py.startswith "" s = true.
Proof. by destruct s. Qed.

Lemma startswith_cons c p d s :
  Py.startswith (String c p) (String d s)
  = (if ascii_dec c d then Py.startswith p s else false).
Proof. done. Qed.

Lemma startswith_spec p s :
  Py.startswith p s = true ↔ ∃ v, s = p +:+ v.
Proof.
  revert s. induction p as [|c p IH]; intros s.
  - rewrite startswith_nil. split; [by exists s | done].
  - destruct s as [|d s].
    + split; [done | by intros [v Hv]].
    + rewrite startswith_cons. destruct (ascii_dec c d) as [->|Hne].
      * rewrite IH. split; intros [v Hv]; exists v; simpl in *; congruence.
      * split; [done | intros [v Hv]; simpl in Hv; congruence].
Qed.

Lemma skip_app p v : Py.skip (String.length p) (p +:+ v) = v.
Proof. induction p as [|c p IH]; simpl; [by destruct v | done]. Qed.

Lemma contains_spec p s :
  Py.contains p s = true ↔ ∃ u v, s = u +:+ p +:+ v.
Proof.
  induction s as [|c s IH]; simpl.
  - rewrite orb_false_r, startswith_spec. split.
    + intros [v Hv]. by exists "", v.
    + intros [u [v Hv]]. destruct u; simpl in Hv; [by exists v | done].
  - rewrite orb_true_iff, startswith_spec, IH. split.
    + intros [[v Hv] | [u [v Hv]]].
      * by exists "", v.
      * exists (String c u), v. simpl. by rewrite Hv.
    + intros [u [v Hv]]. destruct u as [|d u]; simpl in Hv.
      * left. by exists v.
      * right. exists u, v. congruence.
Qed.

Lemma startswith_skip p s :
  Py.startswith p s = true → s = p +:+ Py.skip (String.length p) s.
Proof.
  intros [v ->]%startswith_spec. by rewrite skip_app.
Qed.

Lemma cut_Some p s b a : Py.cut p s = Some (b, a) → s = b +:+ p +:+ a.
Proof.
  revert b. induction s as [|c s IH]; intros b; simpl.
  - destruct (Py.startswith p "") eqn:Hp; [|done].
    intros [= <- <-]. by apply startswith_skip.
  - destruct (Py.startswith p (String c s)) eqn:Hp.
    + intros [= <- <-]. by apply startswith_skip.
    + destruct (Py.cut p s) as [[b' a']|]; [|done].
      intros [= <- <-]. simpl. by rewrite <-(IH b').
Qed.

Lemma cut_None p s : Py.cut p s = None ↔ Py.contains p s = false.
Proof.
  induction s as [|c s IH]; simpl.
  - by destruct (Py.startswith p "").
  - destruct (Py.startswith p (String c s)); simpl; [done|].
    rewrite <-IH. by destruct (Py.cut p s) as [[??]|].
Qed.

Lemma cut_is_Some p s : Py.contains p s = true → is_Some (Py.cut p s).
Proof.
  intros H. destruct (Py.cut p s) eqn:E; [done|].
  apply cut_None in E. congruence.
Qed.

Lemma cut_shorter p s b a :
  p ≠ "" → Py.cut p s = Some (b, a) →
  (String.length a < String.length s)%nat.
Proof.
  intros Hp H%cut_Some. subst s. rewrite !sapp_length.
  destruct p; [done | simpl; lia].
Qed.

Lemma split_go_S n sep s :
  Py.split_go (S n) sep s =
    match Py.cut sep s with
    | Some (b, a) => b :: Py.split_go n sep a
    | None => [s]
    end.
Proof. done. Qed.

Lemma split_go_fuel sep s n m :
  sep ≠ "" → (String.length s ≤ n)%nat → (String.length s ≤ m)%nat →
  Py.split_go n sep s = Py.split_go m sep s.
Proof.
  intros Hsep. revert s m.
  induction n as [|n IH]; intros s m Hn Hm.
  - destruct s; [|simpl in Hn; lia].
    destruct sep; [done|]. by destruct m.
  - destruct m as [|m].
    + destruct s; [|simpl in Hm; lia]. destruct sep; [done | reflexivity].
    + rewrite !split_go_S. destruct (Py.cut sep s) as [[b a]|] eqn:E; [|done].
      pose proof (cut_shorter _ _ _ _ Hsep E). f_equal. apply IH; lia.
Qed.

(** The defining equation of [split]: the fuel never runs out. *)
Lemma split_unfold sep s :
  sep ≠ "" →
  Py.split sep s =
    match Py.cut sep s with
    | Some (b, a) => b :: Py.split sep a
    | None => [s]
    end.
Proof.
  intros Hsep. unfold Py.split. destruct s as [|c s].
  - destruct sep; [done | reflexivity].
  - change (String.length (String c s)) with (S (String.length s)).
    rewrite split_go_S.
    destruct (Py.cut sep (String c s)) as [[b a]|] eqn:E; [|done].
    pose proof (cut_shorter _ _ _ _ Hsep E) as Hlt. simpl in Hlt.
    f_equal. apply split_go_fuel; [done | lia | lia].
Qed.

End StringFacts.

(** Whitespace stripping. *)
Section StripFacts.

Implicit Types s t u v ws : string.

Lemma blank_app s t : blank (s +:+ t) = blank s && blank t.
Proof.
  induction s as [|c s IH]; simpl; [done|].
  by rewrite IH, andb_assoc.
Qed.

Lemma lstrip_blank ws s : blank ws = true → Py.lstrip (ws +:+ s) = Py.lstrip s.
Proof.
  induction ws as [|c ws IH]; simpl; [done|].
  intros [Hc Hws]%andb_true_iff. rewrite Hc. by apply IH.
Qed.

Lemma rstrip_blank_nil ws : blank ws = true → Py.rstrip ws = "".
Proof.
  induction ws as [|c ws IH]; simpl; [done|].
  intros [Hc Hws]%andb_true_iff. by rewrite IH, Hc.
Qed.

Lemma rstrip_nil_blank s : Py.rstrip s = "" → blank s = true.
Proof.
  induction s as [|c s IH]; simpl; [done|].
  destruct (Py.rstrip s); [|done].
  destruct (Py.isspace c); [|done]. intros _. by rewrite IH.
Qed.

Lemma rstrip_blank s ws : blank ws = true → Py.rstrip (s +:+ ws) = Py.rstrip s.
Proof.
  intros Hws. induction s as [|c s IH]; simpl.
  - by apply rstrip_blank_nil.
  - by rewrite IH.
Qed.

Lemma lstrip_nil_blank s : Py.lstrip s = "" ↔ blank s = true.
Proof.
  induction s as [|c s IH]; simpl; [done|].
  destruct (Py.isspace c); simpl; [done|]. split; [done | done].
Qed.

Lemma lstrip_app_nonblank s t :
  blank s = false → Py.lstrip (s +:+ t) = Py.lstrip s +:+ t.
Proof.
  induction s as [|c s IH]; simpl; [done|].
  destruct (Py.isspace c); simpl; [done | done].
Qed.

Lemma strip_blank s : blank s = true → Py.strip s = "".
Proof.
  intros H. unfold Py.strip. apply lstrip_nil_blank in H. by rewrite H.
Qed.

Lemma lstrip_blank_iff s : blank (Py.lstrip s) = blank s.
Proof.
  induction s as [|c s IH]; simpl; [done|].
  destruct (Py.isspace c) eqn:Hc; simpl; [done|]. by rewrite Hc.
Qed.

Lemma strip_nil_blank s : Py.strip s = "" ↔ blank s = true.
Proof.
  split; [|apply strip_blank].
  unfold Py.strip. intros H%rstrip_nil_blank.
  by rewrite lstrip_blank_iff in H.
Qed.

(** Whitespace around a text does not change what [strip] returns. *)
Lemma strip_pad ws1 s ws2 :
  blank ws1 = true → blank ws2 = true →
  Py.strip (ws1 +:+ s +:+ ws2) = Py.strip s.
Proof.
  intros H1 H2. unfold Py.strip. rewrite lstrip_blank by done.
  destruct (blank s) eqn:Hs.
  - assert (blank (s +:+ ws2) = true) as H by (by rewrite blank_app, Hs, H2).
    apply lstrip_nil_blank in H, Hs. by rewrite H, Hs.
  - rewrite lstrip_app_nonblank by done. by apply rstrip_blank.
Qed.

Lemma lstrip_suffix s : ∃ u, s = u +:+ Py.lstrip s.
Proof.
  induction s as [|c s [u IH]]; simpl; [by exists ""|].
  destruct (Py.isspace c); [|by exists ""].
  exists (String c u). simpl. by rewrite <-IH.
Qed.

Lemma rstrip_prefix s : ∃ v, s = Py.rstrip s +:+ v.
Proof.
  induction s as [|c s [v IH]]; simpl; [by exists ""|].
  destruct (Py.rstrip s) eqn:E.
  - destruct (Py.isspace c); [by exists (String c s)|].
    exists v. simpl. by rewrite IH at 1.
  - exists v. simpl. by rewrite IH at 1.
Qed.

(** [strip] returns a piece of its argument. *)
Lemma strip_infix s : ∃ u v, s = u +:+ Py.strip s +:+ v.
Proof.
  destruct (lstrip_suffix s) as [u Hu].
  destruct (rstrip_prefix (Py.lstrip s)) as [v Hv].
  exists u, v. unfold Py.strip. by rewrite <-Hv.
Qed.

Lemma rstrip_idemp s : Py.rstrip (Py.rstrip s) = Py.rstrip s.
Proof.
  induction s as [|c s IH]; simpl; [done|].
  destruct (Py.rstrip s) eqn:E.
  - destruct (Py.isspace c) eqn:Hc; simpl; [done | by rewrite Hc].
  - simpl in *. rewrite IH. done.
Qed.

Lemma lstrip_rstrip_nonspace s :
  match Py.rstrip (Py.lstrip s) with
  | String c _ => Py.isspace c = false
  | EmptyString => True
  end.
Proof.
  induction s as [|c s IH]; simpl; [done|].
  destruct (Py.isspace c) eqn:Hc; [done|]. simpl.
  destruct (Py.rstrip s); [by rewrite Hc | done].
Qed.

Lemma strip_idemp s : Py.strip (Py.strip s) = Py.strip s.
Proof.
  unfold Py.strip. pose proof (lstrip_rstrip_nonspace s) as H.
  destruct (Py.rstrip (Py.lstrip s)) as [|c r] eqn:E; [done|].
  assert (Py.lstrip (String c r) = String c r) as -> by (simpl; by rewrite H).
  by rewrite <-E, rstrip_idemp.
Qed.

End StripFacts.

(** * Facts about the field extractor *)

Section ScanFacts.

Implicit Types (line key : string) (l : locals) (lines : list string).

Lemma contains_app_r u p s : Py.contains p s = true → Py.contains p (u +:+ s) = true.
Proof.
  rewrite !contains_spec. intros (a & b & ->).
  exists (u +:+ a), b. by rewrite sapp_assoc.
Qed.

Lemma contains_infix p s t :
  Py.contains p s = true → Py.contains s t = true → Py.contains p t = true.
Proof.
  rewrite !contains_spec. intros (a & b & ->) (c & d & ->).
  exists (c +:+ a), (b +:+ d). by rewrite !sapp_assoc.
Qed.

Lemma is_field_contains key line :
  is_field key line = true → Py.contains key line = true.
Proof.
  unfold is_field. intros [v Hv]%startswith_spec.
  destruct (strip_infix line) as (a & b & Hab).
  apply contains_spec. exists a, (v +:+ b).
  rewrite Hab at 1. by rewrite Hv, sapp_assoc.
Qed.

(** The [[1]] of lines 71-84 never raises: the separator occurs in a line
    that passed the test of its branch. *)
Lemma value_after_Ok sep line :
  Py.contains sep line = true → value_after sep line = Ok (value_of sep line).
Proof.
  intros [[b a] E]%cut_is_Some. unfold value_after, value_of, Py.split1_snd.
  by rewrite E.
Qed.

Lemma value_after_field key line :
  Py.contains ":" key = true → is_field key line = true →
  value_after ":" line = Ok (value_of ":" line).
Proof.
  intros Hk Hf. apply value_after_Ok.
  eapply contains_infix; [exact Hk | by apply is_field_contains].
Qed.

Lemma value_after_family line :
  Py.contains "- family:" line = true →
  value_after "family:" line = Ok (value_of "family:" line).
Proof.
  intros H. apply value_after_Ok.
  eapply contains_infix; [|exact H]. reflexivity.
Qed.

(** The loop body, branch by branch. *)
Lemma scan_line_kind idx line l :
  scan_line idx line l =
    match line_kind line with
    | KFamily =>
        Ok (set_authors (authors l ++ [value_of "family:" line]) l)
    | KPublisher => Ok (set_publisher (value_of ":" line) l)
    | KContainerTitle => Ok (set_container_title (value_of ":" line) l)
    | KIssued => Ok (set_issued_date (value_of ":" line) l)
    | KDoi => Ok (set_doi (value_of ":" line) l)
    | KUrl => Ok (set_url (value_of ":" line) l)
    | KType =>
        if String.eqb (value_of ":" line) "book" then
          match publisher l with
          | Some p =>
              Ok (set_container_title p
                    (set_line idx "  type: conference" l))
          | None => Raise (UnboundLocalError "publisher")
          end
        else if String.eqb (value_of ":" line) "article-journal" then
          Ok (set_line idx "  type: journal" l)
        else Ok l
    | KOther => Ok l
    end.
Proof.
  unfold scan_line, line_kind.
  destruct (Py.contains "- family:" line) eqn:Hfam.
  { by rewrite value_after_family. }
  repeat match goal with
  | |- context [is_field ?k line] =>
      destruct (is_field k line) eqn:?;
      [ rewrite (value_after_field k line) by done; try done | ]
  end; done.
Qed.

Lemma scan_line_publisher idx line l l' :
  scan_line idx line l = Ok l' →
  publisher l' = publisher_after [line] (publisher l).
Proof.
  rewrite scan_line_kind. unfold publisher_after. simpl.
  destruct (line_kind line); simpl; try (by intros [= <-]).
  repeat case_match; by intros [= <-].
Qed.

(** What the body does to the list it iterates over. *)
Lemma scan_line_lines pre line rest l l' :
  article_lines l = pre ++ line :: rest →
  scan_line (length pre) line l = Ok l' →
  article_lines l' = pre ++ normalize_line line :: rest.
Proof.
  intros Hl. rewrite scan_line_kind.
  assert (∀ v, <[length pre := v]> (article_lines l) = pre ++ v :: rest)
    as Hins.
  { intros v. rewrite Hl.
    replace (length pre) with (length pre + 0)%nat by lia.
    by rewrite insert_app_r. }
  unfold normalize_line, declared_category.
  destruct (line_kind line); simpl; try (by intros [= <-]).
  repeat case_match; intros [= <-]; simpl; by rewrite ?Hins.
Qed.

Lemma for_lines_scan_list rest pre l :
  article_lines l = pre ++ rest →
  for_lines (length rest) (length pre) l = scan_list (length pre) rest l.
Proof.
  revert pre l. induction rest as [|x rest IH]; intros pre l Hl; [done|].
  simpl. rewrite Hl, list_lookup_middle by done.
  destruct (scan_line (length pre) x l) as [l1|e] eqn:E; simpl; [|done].
  apply (scan_line_lines _ _ _ _ _ Hl) in E.
  specialize (IH (pre ++ [normalize_line x]) l1).
  rewrite length_app in IH. simpl in IH.
  replace (length pre + 1)%nat with (S (length pre)) in IH by lia.
  apply IH. by rewrite <-(assoc_L (++)).
Qed.

(** The loop of the source is the fold over its lines. *)
Lemma scan_scan_list lines pub :
  scan lines pub = scan_list 0 lines (Locals [] pub "" "" "" "" lines).
Proof. apply (for_lines_scan_list lines []). done. Qed.

Lemma scan_list_app idx xs ys l :
  scan_list idx (xs ++ ys) l =
    l' ← scan_list idx xs l; scan_list (idx + length xs) ys l'.
Proof.
  revert idx l. induction xs as [|x xs IH]; intros idx l; simpl.
  - by rewrite Nat.add_0_r.
  - destruct (scan_line idx x l) as [l1|e]; simpl; [|done].
    rewrite IH. by replace (S idx + length xs)%nat with (idx + S (length xs))%nat by lia.
Qed.

Lemma scan_list_lines rest pre l l' :
  article_lines l = pre ++ rest →
  scan_list (length pre) rest l = Ok l' →
  article_lines l' = pre ++ map normalize_line rest.
Proof.
  revert pre l. induction rest as [|x rest IH]; intros pre l Hl; simpl.
  - intros [= <-]. done.
  - destruct (scan_line (length pre) x l) as [l1|e] eqn:E; simpl; [|done].
    apply (scan_line_lines _ _ _ _ _ Hl) in E. intros H.
    specialize (IH (pre ++ [normalize_line x]) l1).
    rewrite length_app, <-!(assoc_L (++)) in IH. simpl in IH.
    replace (length pre + 1)%nat with (S (length pre)) in IH by lia.
    by apply IH.
Qed.

Lemma book_line_spec line :
  book_line line = true ↔
  line_kind line = KType ∧ value_of ":" line = "book".
Proof.
  unfold book_line, declared_category. rewrite bool_decide_eq_true.
  destruct (decide (line_kind line = KType)) as [Hk|Hk]; split.
  - by intros [= ->].
  - by intros [_ ->].
  - done.
  - by intros [? _].
Qed.

Lemma book_line_false line :
  book_line line = false →
  line_kind line = KType → String.eqb (value_of ":" line) "book" = false.
Proof.
  intros Hb Hk. apply String.eqb_neq. intros Hv.
  assert (book_line line = true) by (by apply book_line_spec). congruence.
Qed.

(** The only exception the body raises is the read of an unbound
    [publisher], on a "book" line. *)
Lemma scan_line_Raise idx line l e :
  scan_line idx line l = Raise e →
  e = UnboundLocalError "publisher" ∧ book_line line = true
  ∧ publisher l = None.
Proof.
  rewrite scan_line_kind, book_line_spec.
  destruct (line_kind line) eqn:Hk; try done.
  destruct (String.eqb_spec (value_of ":" line) "book") as [Hv|Hv].
  - destruct (publisher l); [done|]. by intros [= <-].
  - by case_match.
Qed.

Lemma scan_line_book idx line l :
  book_line line = true →
  scan_line idx line l =
    match publisher l with
    | Some p =>
        Ok (set_container_title p (set_line idx "  type: conference" l))
    | None => Raise (UnboundLocalError "publisher")
    end.
Proof.
  intros [Hk Hv]%book_line_spec. by rewrite scan_line_kind, Hk, Hv.
Qed.

Lemma publisher_after_cons x lines pub :
  publisher_after (x :: lines) pub
  = publisher_after lines (publisher_after [x] pub).
Proof. done. Qed.

Lemma publisher_after_app xs ys pub :
  publisher_after (xs ++ ys) pub
  = publisher_after ys (publisher_after xs pub).
Proof. unfold publisher_after. by rewrite foldl_app. Qed.

Lemma publisher_after_Some lines p :
  is_Some (publisher_after lines (Some p)).
Proof.
  revert p. induction lines as [|x lines IH]; intros p; [by eexists|].
  rewrite publisher_after_cons. unfold publisher_after at 2. simpl.
  case_decide; apply IH.
Qed.

(** No publisher is in force exactly when none was bound before and no
    line assigns one. *)
Lemma publisher_after_None lines pub :
  publisher_after lines pub = None ↔
  pub = None ∧ Forall (λ x, line_kind x ≠ KPublisher) lines.
Proof.
  revert pub. induction lines as [|x lines IH]; intros pub.
  - change (publisher_after [] pub) with pub.
    split; [intros ->; by split | by intros [-> _]].
  - rewrite publisher_after_cons, IH, Forall_cons.
    unfold publisher_after. simpl. case_decide; intuition congruence.
Qed.

Lemma scan_list_Raise idx lines l e :
  scan_list idx lines l = Raise e →
  e = UnboundLocalError "publisher" ∧
  ∃ pre tl post, lines = pre ++ tl :: post ∧ book_line tl = true
                 ∧ publisher_after pre (publisher l) = None.
Proof.
  revert idx l. induction lines as [|x lines IH]; intros idx l; [done|].
  simpl. destruct (scan_line idx x l) as [l1|e1] eqn:E; simpl.
  - intros [-> (pre & tl & post & -> & Hb & Hp)]%IH. split; [done|].
    exists (x :: pre), tl, post. split_and!; [done | done |].
    by rewrite publisher_after_cons, <-(scan_line_publisher _ _ _ _ E).
  - intros [= ->]. apply scan_line_Raise in E as (-> & Hb & Hp).
    split; [done|]. by exists [], x, lines.
Qed.

Lemma scan_list_unbound idx pre tl post l :
  book_line tl = true → publisher_after pre (publisher l) = None →
  scan_list idx (pre ++ tl :: post) l = Raise (UnboundLocalError "publisher").
Proof.
  intros Hb. revert idx l.
  induction pre as [|x pre IH]; intros idx l Hp; simpl.
  - simpl in Hp. by rewrite (scan_line_book _ _ _ Hb), Hp.
  - destruct (scan_line idx x l) as [l1|e1] eqn:E; simpl.
    + apply IH. rewrite (scan_line_publisher _ _ _ _ E).
      by rewrite <-publisher_after_cons.
    + by apply scan_line_Raise in E as (-> & _).
Qed.

(** Without a "book" line the scan cannot fail. *)
Lemma scan_list_Ok idx lines l :
  Forall (λ x, book_line x = false) lines → ∃ l', scan_list idx lines l = Ok l'.
Proof.
  intros Hall. destruct (scan_list idx lines l) as [l'|e] eqn:E; [by eexists|].
  apply scan_list_Raise in E as (_ & pre & tl & post & -> & Hb & _).
  rewrite Forall_app, Forall_cons in Hall.
  destruct Hall as (_ & Hf & _). congruence.
Qed.

(** Authors, publisher, date, identifier and link after a scan. *)
Lemma scan_list_fields idx lines l l' :
  scan_list idx lines l = Ok l' →
  authors l' = authors l ++ families lines
  ∧ publisher l' = publisher_after lines (publisher l)
  ∧ issued_date l' = last_value KIssued lines (issued_date l)
  ∧ doi l' = last_value KDoi lines (doi l)
  ∧ url l' = last_value KUrl lines (url l).
Proof.
  revert idx l. induction lines as [|x lines IH]; intros idx l; simpl.
  - intros [= <-]. by rewrite (right_id_L [] (++)).
  - destruct (scan_line idx x l) as [l1|e1] eqn:E; simpl; [|done].
    intros (Ha & Hp & Hi & Hd & Hu)%IH.
    rewrite Ha, Hp, Hi, Hd, Hu. clear Ha Hp Hi Hd Hu IH.
    rewrite scan_line_kind in E. unfold families, publisher_after, last_value.
    simpl. destruct (line_kind x) eqn:Hk; simpl;
      repeat case_match; simplify_eq; simpl;
      try match goal with H : publisher _ = Some _ |- _ => rewrite H end;
      by rewrite <-?(assoc_L (++)).
Qed.

(** The venue title survives lines that are neither a container-title
    line nor a "book" line. *)
Lemma scan_list_venue_keep idx lines l l' :
  Forall (λ x, line_kind x ≠ KContainerTitle ∧ book_line x = false) lines →
  scan_list idx lines l = Ok l' →
  container_title l' = container_title l.
Proof.
  intros Hall. revert idx l.
  induction Hall as [|x lines [Hk Hb] _ IH]; intros idx l; simpl.
  - by intros [= <-].
  - destruct (scan_line idx x l) as [l1|e1] eqn:E; simpl; [|done].
    intros ->%IH. rewrite scan_line_kind in E.
    destruct (line_kind x) eqn:Hkx; simplify_eq; try done.
    rewrite (book_line_false _ Hb Hkx) in E.
    by case_match; simplify_eq.
Qed.

(** Without a "book" line the venue title is the value of the last
    container-title line. *)
Lemma scan_list_venue_plain idx lines l l' :
  Forall (λ x, book_line x = false) lines →
  scan_list idx lines l = Ok l' →
  container_title l' = last_value KContainerTitle lines (container_title l).
Proof.
  intros Hall. revert idx l.
  induction Hall as [|x lines Hb _ IH]; intros idx l; simpl.
  - by intros [= <-].
  - destruct (scan_line idx x l) as [l1|e1] eqn:E; simpl; [|done].
    intros ->%IH. unfold last_value. simpl. f_equal.
    rewrite scan_line_kind in E.
    destruct (line_kind x) eqn:Hkx; simplify_eq; try done.
    rewrite (book_line_false _ Hb Hkx) in E.
    by case_match; simplify_eq.
Qed.

(** After a "book" line the venue title is the publisher in force,
    unless a later line overrides it. *)
Lemma scan_list_venue_book idx pre tl post l l' :
  book_line tl = true →
  Forall (λ x, line_kind x ≠ KContainerTitle ∧ book_line x = false) post →
  scan_list idx (pre ++ tl :: post) l = Ok l' →
  publisher_after pre (publisher l) = Some (container_title l').
Proof.
  intros Hb Hpost. rewrite scan_list_app.
  destruct (scan_list idx pre l) as [l1|e1] eqn:Epre; simpl; [|done].
  apply scan_list_fields in Epre as (_ & Hp & _). rewrite <-Hp.
  rewrite (scan_line_book _ _ _ Hb).
  destruct (publisher l1) as [p|]; simpl; [|done].
  intros ->%(scan_list_venue_keep _ _ _ _ Hpost). done.
Qed.

(** The scan of an entry raises nothing but the unbound [publisher]. *)
Lemma scan_scan_list_Raise lines pub e :
  scan lines pub = Raise e → e = UnboundLocalError "publisher".
Proof. rewrite scan_scan_list. by intros [-> _]%scan_list_Raise. Qed.

End ScanFacts.

(** * Facts about the entry splitter *)

Section SplitFacts.

Implicit Types (s sep : string) (parts : list string).

Lemma split_nonempty sep s : Py.split sep s ≠ [].
Proof. unfold Py.split. destruct (String.length s); simpl; [done|]. by repeat case_match. Qed.

Lemma join_cons sep x l :
  l ≠ [] → Py.join sep (x :: l) = x +:+ sep +:+ Py.join sep l.
Proof. by destruct l. Qed.

(** No occurrence of the separator before the first one. *)
Lemma cut_before sep s b a :
  sep ≠ "" → Py.cut sep s = Some (b, a) → Py.contains sep b = false.
Proof.
  intros Hsep. revert b. induction s as [|c s IH]; intros b; simpl.
  - destruct (Py.startswith sep ""); [|done]. intros [= <- <-].
    by destruct sep.
  - destruct (Py.startswith sep (String c s)) eqn:Hp.
    { intros [= <- <-]. by destruct sep. }
    destruct (Py.cut sep s) as [[b' a']|] eqn:E; [|done].
    intros [= <- <-]. simpl. rewrite (IH b') by done.
    rewrite orb_false_r. apply not_true_is_false.
    intros [v Hv]%startswith_spec. apply cut_Some in E.
    assert (Py.startswith sep (String c s) = true); [|congruence].
    apply startswith_spec. exists (v +:+ sep +:+ a').
    rewrite <-sapp_assoc, <-Hv, E. done.
Qed.

(** [split] cuts at the separators and nowhere else: joining the
    fragments gives the text back, and no fragment holds a separator. *)
Lemma split_spec sep s :
  sep ≠ "" →
  Py.join sep (Py.split sep s) = s
  ∧ Forall (λ f, Py.contains sep f = false) (Py.split sep s).
Proof.
  intros Hsep. remember (String.length s) as n eqn:Hn.
  revert s Hn. induction (lt_wf n) as [n _ IH]. intros s ->.
  rewrite split_unfold by done.
  destruct (Py.cut sep s) as [[b a]|] eqn:E.
  - destruct (IH (String.length a)
                (cut_shorter _ _ _ _ Hsep E) a eq_refl) as [Hj Hf].
    split.
    + rewrite join_cons by apply split_nonempty.
      rewrite Hj. symmetry. by apply cut_Some.
    + constructor; [by eapply cut_before | done].
  - split; [done|]. constructor; [by apply cut_None | done].
Qed.

Lemma truthy_strip s : truthy (Py.strip s) = negb (blank s).
Proof.
  unfold truthy. destruct (blank s) eqn:Hb.
  - by rewrite strip_blank.
  - destruct (String.eqb_spec (Py.strip s) "") as [H|H]; [|done].
    apply strip_nil_blank in H. congruence.
Qed.

Lemma append_parts_spec parts acc :
  append_parts parts acc
  = acc ++ map (λ f, "@" +:+ f) (filter (λ f, blank f = false) parts).
Proof.
  revert acc. induction parts as [|f parts IH]; intros acc; simpl.
  - by rewrite (right_id_L [] (++)).
  - rewrite IH, truthy_strip. destruct (blank f) eqn:Hb; simpl.
    + by rewrite filter_cons_False by (by rewrite Hb).
    + rewrite filter_cons_True by done. simpl.
      by rewrite <-(assoc_L (++)).
Qed.

(** The code computes what the specification's words describe. *)
Lemma split_entries_spec text :
  split_entries text
  = entries_of_fragments (Py.split entry_sep (Py.strip text)).
Proof.
  unfold split_entries, entries_of_fragments.
  destruct (Py.split entry_sep (Py.strip text)) as [|e0 parts]; [done|].
  rewrite append_parts_spec. simpl. rewrite drop_0. f_equal.
  unfold restore_first. rewrite truthy_strip.
  destruct (blank e0) eqn:Hb; simpl.
  - by rewrite strip_blank.
  - destruct (Py.startswith "@" (Py.strip e0)) eqn:Hp; simpl.
    + by rewrite truthy_strip, Hb.
    + done.
Qed.

Lemma entries_of_fragments_marker fragments :
  Forall (λ e, Py.startswith "@" e = true) (entries_of_fragments fragments).
Proof.
  unfold entries_of_fragments. apply Forall_app. split.
  - destruct fragments as [|f fragments]; simpl; [done|].
    unfold restore_first.
    destruct (blank f); simpl; [done|]. constructor; [|done].
    destruct (Py.startswith "@" (Py.strip f)) eqn:Hp; [done|].
    apply startswith_spec. by eexists.
  - apply Forall_map, Forall_forall. intros f _.
    apply startswith_spec. by eexists.
Qed.

Lemma split_entries_blank text : blank text = true → split_entries text = [].
Proof.
  intros Hb. rewrite split_entries_spec, strip_blank by done. reflexivity.
Qed.

Lemma split_entries_pad ws1 text ws2 :
  blank ws1 = true → blank ws2 = true →
  split_entries (ws1 +:+ text +:+ ws2) = split_entries text.
Proof.
  intros H1 H2. unfold split_entries. by rewrite strip_pad.
Qed.

End SplitFacts.

(** * Facts about the run *)

Section RunFacts.

Variable pandoc : option string → completed_process.
Variable author : string.

Implicit Types (s : state) (e : string) (entries : list string).

Lemma scratch_fresh (fs : gmap nat string) : fs !! fresh (dom fs) = None.
Proof. apply not_elem_of_dom, is_fresh. Qed.

(** The scratch file of an entry is a new one, and removing it restores
    the directory. *)
Lemma scratch_restore (fs : gmap nat string) v :
  delete (fresh (dom fs)) (<[fresh (dom fs) := v]> fs) = fs.
Proof. apply delete_insert_id, scratch_fresh. Qed.

(** The formatter finds the scratch file, holding the entry. *)
Lemma subprocess_run_entry e s :
  subprocess_run pandoc (fresh (dom (scratch s)))
    (set_scratch (<[fresh (dom (scratch s)) := e]> (scratch s)) s)
  = if rendered pandoc e then Ok (pandoc (Some e))
    else Raise (CalledProcessError (returncode (pandoc (Some e)))
                                   (stderr (pandoc (Some e)))).
Proof.
  unfold subprocess_run, rendered. simpl. by rewrite lookup_insert_eq.
Qed.

(** Failure path: the entry is skipped with a warning. *)
Lemma process_entry_failed e s :
  rendered pandoc e = false →
  process_entry pandoc author e s
  = (Ok (), print (MsgPandocFailed (stderr (pandoc (Some e)))) s).
Proof.
  intros Hr. unfold process_entry, try_body.
  rewrite subprocess_run_entry, Hr. simpl.
  rewrite scratch_restore. by destruct s.
Qed.

(** Success path: the entry's group is appended. *)
Lemma process_entry_rendered e s l :
  rendered pandoc e = true →
  scan (entry_lines pandoc e) (publisher_var s) = Ok l →
  process_entry pandoc author e s
  = (Ok (),
     State (all_articles_yaml_lines s ++ entry_group author l)
           (count_first author (authors l) (first_author_count s))
           (publisher l) (scratch s)
           (if bool_decide ("type:" ∈ article_lines l)
            then console s ++ [MsgHere] else console s)).
Proof.
  intros Hr Hs. unfold process_entry, try_body.
  rewrite subprocess_run_entry, Hr. simpl.
  unfold entry_lines in Hs. rewrite Hs.
  destruct (bool_decide ("type:" ∈ article_lines l));
    simpl; by rewrite scratch_restore.
Qed.

(** Fault path: an exception of the scan leaves the round, after the
    scratch file is removed. *)
Lemma process_entry_raised e s err :
  rendered pandoc e = true →
  scan (entry_lines pandoc e) (publisher_var s) = Raise err →
  process_entry pandoc author e s = (Raise err, s).
Proof.
  intros Hr Hs. unfold process_entry, try_body.
  rewrite subprocess_run_entry, Hr. simpl.
  unfold entry_lines in Hs. rewrite Hs.
  apply scan_scan_list_Raise in Hs as ->. simpl.
  rewrite scratch_restore. by destruct s.
Qed.

Lemma index_head x (l : list string) :
  Py.index x l = Some 0%nat ↔ head l = Some x.
Proof.
  destruct l as [|y l]; simpl; [done|].
  destruct (String.eqb_spec y x) as [->|Hne]; [done|].
  split; [by destruct (Py.index x l) | by intros [= ?]].
Qed.

(** The counter moves exactly when the target author heads the list. *)
Lemma count_first_head (auths : list string) n :
  count_first author auths n
  = if bool_decide (head auths = Some author) then n + 1 else n.
Proof.
  unfold count_first. case_bool_decide as Hh.
  - apply index_head in Hh. by rewrite Hh.
  - destruct (Py.index author auths) as [[|i]|] eqn:E; [| |done].
    + by apply index_head in E.
    + destruct (Z.eqb_spec (Z.of_nat (S i) + 1) 1); [lia | done].
Qed.

Lemma scan_authors lines pub l :
  scan lines pub = Ok l → authors l = families lines.
Proof.
  rewrite scan_scan_list. by intros (-> & _)%scan_list_fields.
Qed.

Lemma rendered_or_failed entries :
  (length (filter (λ e, rendered pandoc e = true) entries)
   + length (failures pandoc entries))%nat = length entries.
Proof.
  unfold failures. induction entries as [|e entries IH]; [done|].
  destruct (rendered pandoc e) eqn:Hr.
  - rewrite filter_cons_True, filter_cons_False by (by rewrite Hr).
    simpl. lia.
  - rewrite filter_cons_False, filter_cons_True by (by rewrite Hr).
    simpl. lia.
Qed.

(** A finished loop: one group per rendered entry, in order; the
    counter; the scratch directory. *)
Lemma for_entries_Ok entries s s' :
  for_entries pandoc author entries s = (Ok (), s') →
  ∃ groups,
    all_articles_yaml_lines s' = all_articles_yaml_lines s ++ concat groups
    ∧ Forall2 (λ g e, ∃ pub l, scan (entry_lines pandoc e) pub = Ok l
                                ∧ g = entry_group author l)
        groups (filter (λ e, rendered pandoc e = true) entries)
    ∧ first_author_count s'
      = first_author_count s
        + Z.of_nat (length (filter (λ e, first_rendered pandoc author e = true)
                              entries))
    ∧ scratch s' = scratch s.
Proof.
  revert s. induction entries as [|e entries IH]; intros s; simpl.
  - intros [= <-]. exists []. simpl.
    by rewrite (right_id_L [] (++)), Z.add_0_r.
  - destruct (rendered pandoc e) eqn:Hr.
    + destruct (scan (entry_lines pandoc e) (publisher_var s))
        as [l|err] eqn:Hs.
      * rewrite (process_entry_rendered _ _ _ Hr Hs).
        intros (groups & Hall & Hg & Hc & Hsc)%IH. simpl in *.
        exists (entry_group author l :: groups). split_and!.
        -- by rewrite Hall, <-(assoc_L (++)).
        -- rewrite filter_cons_True by done. constructor; [by eauto | done].
        -- rewrite Hc, count_first_head, (scan_authors _ _ _ Hs).
           case_bool_decide as Hh.
           ++ rewrite filter_cons_True; [simpl length; lia|].
              unfold first_rendered. by rewrite Hr, bool_decide_true.
           ++ rewrite filter_cons_False; [lia|].
              unfold first_rendered. by rewrite Hr, bool_decide_false.
        -- done.
      * by rewrite (process_entry_raised _ _ _ Hr Hs).
    + rewrite (process_entry_failed _ _ Hr).
      intros (groups & Hall & Hg & Hc & Hsc)%IH. simpl in *.
      exists groups. rewrite !filter_cons_False; [done | |].
      * unfold first_rendered. by rewrite Hr.
      * by rewrite Hr.
Qed.

(** An aborted loop: the fault is the unbound [publisher], and the
    scratch directory is as it was. *)
Lemma for_entries_Raise entries s err s' :
  for_entries pandoc author entries s = (Raise err, s') →
  err = UnboundLocalError "publisher" ∧ scratch s' = scratch s.
Proof.
  revert s. induction entries as [|e entries IH]; intros s; simpl; [done|].
  destruct (rendered pandoc e) eqn:Hr.
  - destruct (scan (entry_lines pandoc e) (publisher_var s))
      as [l|err'] eqn:Hs.
    + rewrite (process_entry_rendered _ _ _ Hr Hs).
      by intros [-> Hsc]%IH.
    + rewrite (process_entry_raised _ _ _ Hr Hs).
      intros [= <- <-]. by apply scan_scan_list_Raise in Hs.
  - rewrite (process_entry_failed _ _ Hr). by intros [-> Hsc]%IH.
Qed.


End RunFacts.

(** * The properties of the specification *)

(** A property of every line of a concrete list, line by line. *)
Ltac each_line :=
  repeat first
    [ apply List.Forall_nil
    | apply List.Forall_cons; [by vm_compute|] ].

(** ** Author rank *)

Lemma index_lookup x (l : list string) i :
  l !! i = Some x → x ∉ take i l → Py.index x l = Some i.
Proof.
  revert i. induction l as [|y l IH]; intros i; [done|].
  destruct i as [|i]; simpl.
  - intros [= ->] _. by rewrite String.eqb_refl.
  - intros Hi Hnot. apply not_elem_of_cons in Hnot as [Hne Hnot].
    destruct (String.eqb_spec y x) as [->|_]; [done|].
    by rewrite (IH i).
Qed.

Lemma index_notin x (l : list string) : x ∉ l → Py.index x l = None.
Proof.
  induction l as [|y l IH]; [done|].
  intros [Hne Hnot]%not_elem_of_cons. simpl.
  destruct (String.eqb_spec y x) as [->|_]; [done|]. by rewrite IH.
Qed.

(** C1.  The author-rank calculator.  When the target's family name occurs
    in the ordered author list, the rank is the text
    "<1-based position>/<total>", the position being that of the first
    exact match ([i] is a 0-based position that holds the name and before
    which it does not occur); when it does not occur, the rank is
    "N/A/<total>".  The position line carries the rank between quotes.  For
    the authors Smith, Stephens, Lee and the target Stephens the rank is
    "2/3". *)
Theorem C1_author_rank (author : string) (authors : list string) :
  (∀ i, authors !! i = Some author → author ∉ take i authors →
        rank author authors
        = Py.str (Z.of_nat i + 1) +:+ "/" +:+ Py.str (Py.len authors))
  ∧ (author ∉ authors →
     rank author authors = "N/A/" +:+ Py.str (Py.len authors))
  ∧ position_line author authors
    = "  position: '" +:+ rank author authors +:+ "'"
  ∧ rank "Stephens" ["Smith"; "Stephens"; "Lee"] = "2/3"
  ∧ rank "Stephens" ["Smith"; "Lee"] = "N/A/2".
Proof.
  split_and!.
  - intros i Hi Hnot. unfold rank. by rewrite (index_lookup _ _ _ Hi Hnot).
  - intros Hnot. unfold rank. by rewrite index_notin.
  - done.
  - reflexivity.
  - reflexivity.
Qed.

(** C1 at the authors Smith, Stephens, Stephens and the target Stephens:
    the first match, at position 2 of 3, gives the rank. *)
Lemma C1_author_rank_witness :
  rank "Stephens" ["Smith"; "Stephens"; "Stephens"]
  = Py.str 2 +:+ "/" +:+ Py.str 3.
Proof.
  apply (proj1 (C1_author_rank "Stephens" ["Smith"; "Stephens"; "Stephens"])
           1%nat).
  - reflexivity.
  - simpl. rewrite list_elem_of_singleton. discriminate.
Defined.

(** ** Category normalisation *)



(** ** Entry splitter *)

(** The specification's rule on empty trailing fragments fails on a
    bibliography that ends in a stray marker: its last fragment is empty
    and no entry is made of it. *)
Lemma C3_counterexample : ¬ keeps_empty_trailing_fragment Sample.bib_stray.
Proof.
  unfold keeps_empty_trailing_fragment. intros H.
  assert (last (split_entries Sample.bib_stray) = Some "@") as Hl.
  { apply H; [vm_compute; lia | reflexivity]. }
  vm_compute in Hl. discriminate Hl.
Qed.

(** C3, amended.  The splitter strips the text and cuts it at the entry
    markers, and only there: the fragments joined by the marker are the
    stripped text, and no fragment holds a marker.  The entries are the
    first fragment, stripped and given the marker unless it carries it,
    and every later fragment with the marker restored; a fragment that is
    empty or whitespace only, a trailing one included, is dropped.  So
    every entry starts with the marker, whitespace around the text changes
    nothing, and a text with no entry (whitespace only) yields the empty
    listing. *)
Theorem C3_entry_splitter (text : string) :
  let fragments := Py.split entry_sep (Py.strip text) in
  Py.join entry_sep fragments = Py.strip text
  ∧ Forall (λ f, Py.contains entry_sep f = false) fragments
  ∧ split_entries text = entries_of_fragments fragments
  ∧ Forall (λ e, Py.startswith "@" e = true) (split_entries text)
  ∧ (∀ ws1 ws2, blank ws1 = true → blank ws2 = true →
       split_entries (ws1 +:+ text +:+ ws2) = split_entries text)
  ∧ (blank text = true → split_entries text = []).
Proof.
  intros fragments. subst fragments.
  destruct (split_spec entry_sep (Py.strip text)) as [Hj Hf]; [done|].
  split_and!; [done | done | apply split_entries_spec | | |].
  - rewrite split_entries_spec. apply entries_of_fragments_marker.
  - intros ws1 ws2. apply split_entries_pad.
  - apply split_entries_blank.
Qed.

(** C3, amended, on the sample bibliography of two entries wrapped in
    blank lines: the same two entries come out. *)
Lemma C3_entry_splitter_witness :
  split_entries
    (String Py.LF " " +:+ Sample.bib [Sample.e_journal; Sample.e_first]
       +:+ String Py.LF (String Py.LF ""))
  = split_entries (Sample.bib [Sample.e_journal; Sample.e_first]).
Proof.
  apply (C3_entry_splitter (Sample.bib [Sample.e_journal; Sample.e_first]));
    reflexivity.
Defined.

(** ** Render failures *)



(** ** Link resolution *)

(** C5.  Link resolution.  Unless the scan stops on the unbound publisher
    (C9), the group of an entry ends with its link lines and its position
    line, the link lines being: the resolver link made of the identifier
    when the entry has one; the explicit link, verbatim, when the entry
    has one; and when it has both, the identifier's line first and the
    explicit link's line after it.  The identifier and the link of an
    entry are the values of its last doi line and of its last url line. *)
Theorem C5_link_resolution (author : string) (lines : list string)
    (pub : option string) :
  match scan lines pub with
  | Ok l =>
      entry_group author l
      = article_lines l ++ type_title_line l ++ date_line l
        ++ link_lines (last_value KDoi lines "") (last_value KUrl lines "")
        ++ [position_line author (authors l)]
  | Raise e => e = UnboundLocalError "publisher"
  end
  ∧ link_lines "10.1000/j.1" "" = ["  path: https://doi.org/10.1000/j.1"]
  ∧ link_lines "" "https://example.org/tides"
    = ["  path: https://example.org/tides"]
  ∧ link_lines "10.1000/j.1" "https://example.org/tides"
    = ["  path: https://doi.org/10.1000/j.1";
       "  path: https://example.org/tides"]
  ∧ (entry_group author <$> scan Sample.lines_journal None)
    = Ok (map normalize_line Sample.lines_journal
          ++ ["  type-title: '*J. Mar. Sci.*'"; "  date: 2020";
              "  path: https://doi.org/10.1000/j.1";
              "  path: https://example.org/tides";
              position_line author ["Smith"; "Stephens"]]).
Proof.
  split_and!; [|reflexivity..].
  destruct (scan lines pub) as [l|e] eqn:E;
    [|by apply scan_scan_list_Raise in E].
  rewrite scan_scan_list in E.
  apply scan_list_fields in E as (_ & _ & _ & Hd & Hu). simpl in Hd, Hu.
  unfold entry_group, doi_line, url_line, link_lines. rewrite <-Hd, <-Hu.
  by destruct (truthy (doi l)), (truthy (url l)).
Qed.

(** ** Absent fields *)

Lemma last_value_absent k (lines : list string) d :
  Forall (λ x, line_kind x ≠ k) lines → last_value k lines d = d.
Proof.
  unfold last_value. induction 1 as [|x lines Hx _ IH]; simpl; [done|].
  by rewrite decide_False.
Qed.

(** The specification's rule on absent fields fails on the sample book:
    the formatter's output has no container-title line, and the record
    has a venue title line all the same, made of the publisher. *)
Lemma C7_counterexample : ¬ omits_absent_fields Sample.lines_book_acm None.
Proof.
  intros H.
  destruct (H (Locals ["Lee"] (Some "ACM") "ACM" "2018" "" ""
                 (map normalize_line Sample.lines_book_acm)))
    as [Hv _]; [reflexivity|].
  assert (type_title_line
            (Locals ["Lee"] (Some "ACM") "ACM" "2018" "" ""
               (map normalize_line Sample.lines_book_acm)) = []) as Hnil.
  { apply Hv. unfold Sample.lines_book_acm. each_line. }
  discriminate Hnil.
Qed.

(** C7, amended.  An absent field is omitted and its absence is never
    fatal.  When the scan of an entry's lines ends, the record has no date
    line if no line carries the issue date, no resolver line if none
    carries the identifier, no link line if none carries the link, and no
    venue title line if none carries the venue title and none declares
    the category "book" (for a book the publisher stands in as the venue
    title, C2).  The scan ends unless it stops on the unbound publisher,
    which takes a line that declares "book" (C9): no absence of the four
    fields stops it. *)
Theorem C7_absent_fields (lines : list string) (pub : option string) :
  match scan lines pub with
  | Ok l =>
      (Forall (λ x, line_kind x ≠ KIssued) lines → date_line l = [])
      ∧ (Forall (λ x, line_kind x ≠ KDoi) lines → doi_line l = [])
      ∧ (Forall (λ x, line_kind x ≠ KUrl) lines → url_line l = [])
      ∧ (Forall (λ x, line_kind x ≠ KContainerTitle) lines →
         Forall (λ x, book_line x = false) lines →
         type_title_line l = [])
  | Raise e =>
      e = UnboundLocalError "publisher"
      ∧ Exists (λ x, book_line x = true) lines
  end.
Proof.
  destruct (scan lines pub) as [l|e] eqn:E; rewrite scan_scan_list in E.
  - pose proof (scan_list_fields _ _ _ _ E) as (_ & _ & Hi & Hd & Hu).
    simpl in Hi, Hd, Hu.
    unfold date_line, doi_line, url_line, type_title_line.
    split_and!.
    + intros H. by rewrite Hi, last_value_absent.
    + intros H. by rewrite Hd, last_value_absent.
    + intros H. by rewrite Hu, last_value_absent.
    + intros H Hb. rewrite (scan_list_venue_plain _ _ _ _ Hb E).
      by rewrite last_value_absent.
  - apply scan_list_Raise in E as (-> & pre & tl & post & -> & Hb & _).
    split; [done|]. apply Exists_app. right. by constructor.
Qed.

(** C7, amended, on the lines of a sample article that has neither an
    identifier nor a link: its record has no resolver line. *)
Lemma C7_absent_fields_witness :
  match scan Sample.lines_first None with
  | Ok l => doi_line l = []
  | Raise _ => False
  end.
Proof.
  pose proof (C7_absent_fields Sample.lines_first None) as H.
  set (r := scan Sample.lines_first None) in *.
  vm_compute in r. subst r. cbv beta iota in *.
  destruct H as (_ & H & _). apply H.
  unfold Sample.lines_first. each_line.
Defined.

(** ** Title statistic *)

(** The sample formatter and the reading of the entries' texts agree on
    every entry that is rendered. *)
Lemma sample_first_listed e :
  rendered Sample.pandoc e = true →
  Sample.lists_first "Stephens" e
  = bool_decide (head (families (entry_lines Sample.pandoc e))
                 = Some "Stephens").
Proof.
  unfold rendered, entry_lines, Sample.lists_first, Sample.pandoc.
  generalize (Py.strip e) as c. intros c.
  destruct (String.eqb_spec c Sample.e_journal) as [->|_];
    [intros _; by vm_compute|].
  destruct (String.eqb_spec c Sample.e_first) as [->|_];
    [intros _; by vm_compute|].
  destruct (String.eqb_spec c Sample.e_book_acm) as [->|_];
    [intros _; by vm_compute|].
  destruct (String.eqb_spec c Sample.e_book_nopub) as [->|_];
    [intros _; by vm_compute|].
  intros H. by vm_compute in H.
Qed.

(** The specification's title statistic fails on a bibliography of one
    entry that lists the target author first and that the formatter
    rejects: the title shows "0 + 1", not "1 + 0". *)
Lemma C6_counterexample :
  ¬ title_statistic_as_stated Sample.pandoc (Sample.lists_first "Stephens")
      "Stephens" (Sample.bib [Sample.e_broken]) "publications.yml" ∅.
Proof.
  intros H. specialize (H sample_first_listed).
  assert (∃ yml qmd s,
            create_pub_listing Sample.pandoc "Stephens"
              (Some (Sample.bib [Sample.e_broken])) "publications.yml" ∅
            = Finished yml qmd s) as (yml & qmd & s & E).
  { eexists _, _, _. vm_compute. reflexivity. }
  pose proof (H _ _ _ E) as Hq. rewrite E in *.
  vm_compute in E. injection E as _ <- _.
  vm_compute in Hq. discriminate Hq.
Qed.

Lemma filter_length_le {A} (P : A → Prop) `{∀ x, Decision (P x)} (l : list A) :
  (length (filter P l) ≤ length l)%nat.
Proof.
  induction l as [|x l IH]; [done|].
  rewrite filter_cons. case_decide; simpl; lia.
Qed.

(** C6, amended.  In every run that emits the definition document over N
    entries, of which k are rendered with the target author first in the
    formatter's output, the title of the document is
    "Publications (k + (N-k))".  An entry that the formatter rejects counts
    in N and never in k, whoever its text lists first. *)
Theorem C6_title_statistic (pandoc : option string → completed_process)
    (author bib yml_name : string) (tmp : gmap nat string)
    (yml qmd : string) (s : state) :
  create_pub_listing pandoc author (Some bib) yml_name tmp
  = Finished yml qmd s →
  let N := length (split_entries bib) in
  let k := length (filter (λ e, first_rendered pandoc author e = true)
                     (split_entries bib)) in
  let statistic :=
    Py.str (Z.of_nat k) +:+ " + " +:+ Py.str (Z.of_nat N - Z.of_nat k) in
  qmd = qmd_template statistic yml_name
  ∧ Py.contains ("title: 'Publications (" +:+ statistic +:+ ")'") qmd = true
  ∧ (k ≤ N)%nat.
Proof.
  intros Hrun N k statistic. unfold create_pub_listing in Hrun.
  destruct (for_entries _ _ _ _) as [[[]|e] s1] eqn:E; [|done].
  apply for_entries_Ok in E as (_ & _ & _ & Hc & _). simpl in Hc.
  injection Hrun as _ <- _. rewrite Hc.
  change (qmd_template (title_counts (0 + Z.of_nat k)
                          (Py.len (split_entries bib))) yml_name)
    with (qmd_template statistic yml_name).
  split_and!.
  - done.
  - apply contains_spec.
    exists ("---" +:+ String Py.LF ""). eexists. reflexivity.
  - apply filter_length_le.
Qed.

(** C6, amended, on the sample bibliography of three entries: one
    co-authored article, one first-author article, one entry that the
    formatter rejects.  The title shows "1 + 2". *)
Lemma C6_title_statistic_witness :
  ∃ yml qmd s,
    Sample.listing [Sample.e_journal; Sample.e_first; Sample.e_broken]
    = Finished yml qmd s
    ∧ Py.contains "title: 'Publications (1 + 2)'" qmd = true.
Proof.
  eexists _, _, _. split; [vm_compute; reflexivity|].
  refine (proj1 (proj2 (C6_title_statistic Sample.pandoc "Stephens"
            (Sample.bib [Sample.e_journal; Sample.e_first; Sample.e_broken])
            "publications.yml" ∅ _ _ _ _))).
  vm_compute. reflexivity.
Defined.

(** ** Scratch file *)

(** C8.  The scratch file of an entry is acquired before the formatter is
    invoked and released after use on every path.  The path of the file
    is a new one; when the formatter runs, the file exists and holds the
    entry; and after the round, whether the entry was rendered, the
    formatter failed or the scan raised, the scratch directory is what it
    was before the round.  So it is after the whole run, finished or
    aborted. *)
Theorem C8_scratch_released (pandoc : option string → completed_process)
    (author : string) :
  (∀ entry_str s,
     let temp_bib_path := fresh (dom (scratch s)) in
     let s1 := set_scratch (<[temp_bib_path := entry_str]> (scratch s)) s in
     scratch s !! temp_bib_path = None
     ∧ scratch s1 !! temp_bib_path = Some entry_str
     ∧ subprocess_run pandoc temp_bib_path s1
       = (if rendered pandoc entry_str then Ok (pandoc (Some entry_str))
          else Raise (CalledProcessError
                        (returncode (pandoc (Some entry_str)))
                        (stderr (pandoc (Some entry_str)))))
     ∧ scratch (process_entry pandoc author entry_str s).2 = scratch s)
  ∧ (∀ bib yml_name tmp,
       match create_pub_listing pandoc author (Some bib) yml_name tmp with
       | Finished _ _ s => scratch s = tmp
       | Crashed _ s => scratch s = tmp
       | NoInput _ => False
       end).
Proof.
  split.
  - intros e s temp_bib_path s1. split_and!.
    + apply scratch_fresh.
    + subst s1. simpl. apply lookup_insert_eq.
    + apply subprocess_run_entry.
    + destruct (rendered pandoc e) eqn:Hr.
      * destruct (scan (entry_lines pandoc e) (publisher_var s))
          as [l|err] eqn:Hs.
        -- by rewrite (process_entry_rendered _ _ _ _ _ Hr Hs).
        -- by rewrite (process_entry_raised _ _ _ _ _ Hr Hs).
      * by rewrite (process_entry_failed _ _ _ _ Hr).
  - intros bib yml_name tmp. unfold create_pub_listing.
    destruct (for_entries _ _ _ _) as [[[]|e] s] eqn:E.
    + by apply for_entries_Ok in E as (_ & _ & _ & _ & Hsc).
    + by apply for_entries_Raise in E as [_ Hsc].
Qed.

(** ** The publisher that is not reset *)

Lemma publisher_after_absent (lines : list string) pub :
  Forall (λ x, line_kind x ≠ KPublisher) lines →
  publisher_after lines pub = pub.
Proof.
  unfold publisher_after. induction 1 as [|x lines Hx _ IH]; simpl; [done|].
  by rewrite decide_False.
Qed.

(** C9.  The publisher is assigned only by a publisher line and is not
    reset between entries.  Take a rendered entry whose lines have a line
    declaring "book" with no publisher line before it.  If no earlier
    entry bound the publisher, the round raises the unbound-variable error
    (Python's UnboundLocalError, a NameError), which nothing catches: the
    run is aborted.  If an earlier entry bound it to [p], the round ends
    normally and, unless a later line sets the venue again, the venue
    title of this entry is [p].  On the samples: a bibliography of the one
    book without publisher aborts, with no document written; after the ACM
    book, the same entry gets the venue title "*ACM*". *)
Theorem C9_publisher_not_reset (pandoc : option string → completed_process)
    (author : string) :
  (∀ entry_str s pre tl post,
     rendered pandoc entry_str = true →
     entry_lines pandoc entry_str = pre ++ tl :: post →
     book_line tl = true →
     Forall (λ x, line_kind x ≠ KPublisher) pre →
     match publisher_var s with
     | None =>
         process_entry pandoc author entry_str s
         = (Raise (UnboundLocalError "publisher"), s)
         ∧ ∀ rest, for_entries pandoc author (entry_str :: rest) s
                   = (Raise (UnboundLocalError "publisher"), s)
     | Some p =>
         ∃ l s',
           scan (entry_lines pandoc entry_str) (Some p) = Ok l
           ∧ process_entry pandoc author entry_str s = (Ok (), s')
           ∧ all_articles_yaml_lines s'
             = all_articles_yaml_lines s ++ entry_group author l
           ∧ (Forall (λ x, line_kind x ≠ KContainerTitle
                           ∧ book_line x = false) post →
              container_title l = p)
     end)
  ∧ Sample.listing [Sample.e_book_nopub]
    = Crashed (UnboundLocalError "publisher") (State [] 0 None ∅ [])
  ∧ Sample.yml_of (Sample.listing [Sample.e_book_acm; Sample.e_book_nopub])
    = Some [ "- author:"; "  - family: Lee"; "    given: K."; "  id: l18";
             "  issued: 2018"; "  publisher: ACM"; "  title: Sensing";
             "  type: conference"; "  type-title: '*ACM*'"; "  date: 2018";
             "  position: 'N/A/1'";
             "- author:"; "  - family: Stephens"; "    given: D.";
             "  id: s19"; "  issued: 2019"; "  title: Notes";
             "  type: conference"; "  type-title: '*ACM*'"; "  date: 2019";
             "  position: '1/1'" ].
Proof.
  split_and!; [|by vm_compute..].
  intros e s pre tl post Hr Hl Hb Hpre.
  destruct (publisher_var s) as [p|] eqn:Hp.
  - destruct (scan (entry_lines pandoc e) (Some p)) as [l|err] eqn:Hs.
    + exists l. eexists. split; [done|].
      rewrite <-Hp in Hs.
      rewrite (process_entry_rendered _ _ _ _ _ Hr Hs). rewrite Hp in Hs.
      split_and!; [done | done |].
      intros Hpost. rewrite scan_scan_list, Hl in Hs.
      apply (scan_list_venue_book _ _ _ _ _ _ Hb Hpost) in Hs.
      rewrite publisher_after_absent in Hs by done. simpl in Hs. congruence.
    + rewrite scan_scan_list in Hs.
      apply scan_list_Raise in Hs as (_ & pre' & _ & _ & _ & _ & Hnone).
      simpl in Hnone. destruct (publisher_after_Some pre' p) as [? Hsome].
      congruence.
  - assert (scan (entry_lines pandoc e) (publisher_var s)
            = Raise (UnboundLocalError "publisher")) as Hs.
    { rewrite scan_scan_list, Hl, Hp. apply scan_list_unbound; [done|].
      simpl. by apply publisher_after_None. }
    pose proof (process_entry_raised pandoc author _ _ _ Hr Hs) as Hpe.
    split; [done|]. intros rest. simpl. by rewrite Hpe.
Qed.

(** C9 on the sample book without publisher, met first in a run: the
    round raises. *)
Lemma C9_publisher_not_reset_witness :
  process_entry Sample.pandoc "Stephens" Sample.e_book_nopub
    (State [] 0 None ∅ [])
  = (Raise (UnboundLocalError "publisher"), State [] 0 None ∅ []).
Proof.
  apply (proj1 (C9_publisher_not_reset Sample.pandoc "Stephens")
           Sample.e_book_nopub (State [] 0 None ∅ [])
           (take 6 Sample.lines_book_nopub) "  type: book" []).
  - reflexivity.
  - reflexivity.
  - reflexivity.
  - unfold Sample.lines_book_nopub. simpl take. each_line.
Defined.

(** ** The total of the title statistic *)

Lemma first_rendered_le pandoc author (l : list string) :
  (length (filter (λ e, first_rendered pandoc author e = true) l)
   ≤ length (filter (λ e, rendered pandoc e = true) l))%nat.
Proof.
  induction l as [|x l IH]; [done|].
  destruct (rendered pandoc x) eqn:Hr.
  - rewrite (filter_cons_True (λ e, rendered pandoc e = true)) by done.
    destruct (first_rendered pandoc author x) eqn:Hf.
    + rewrite filter_cons_True by done. simpl. lia.
    + rewrite filter_cons_False by (by rewrite Hf). simpl. lia.
  - rewrite !filter_cons_False; [done | by rewrite Hr |].
    unfold first_rendered. by rewrite Hr.
Qed.

(** C10.  The total of the title statistic counts every entry of the
    splitter, the ones whose rendering failed included, while the
    first-author count moves on rendered entries only.  In every run that
    emits the definition document, the title shows "k + (r + f - k)", where
    r entries were rendered, f failed and k of the rendered ones list the
    target author first; and a round whose formatter fails leaves the
    first-author count as it is.  On the sample bibliography of an entry
    that lists the target first and that the formatter rejects, followed
    by a first-author article that it renders, the title shows "1 + 1": the
    rejected entry is not in the first-author count, it is in the total,
    and the data file has the one group of the article. *)
Theorem C10_total_counts_failed :
  (∀ pandoc author bib yml_name tmp,
     match create_pub_listing pandoc author (Some bib) yml_name tmp with
     | Finished yml qmd s =>
         let r := length (filter (λ e, rendered pandoc e = true)
                            (split_entries bib)) in
         let f := length (failures pandoc (split_entries bib)) in
         let k := length (filter (λ e, first_rendered pandoc author e = true)
                            (split_entries bib)) in
         first_author_count s = Z.of_nat k
         ∧ (k ≤ r)%nat
         ∧ qmd = qmd_template
                   (Py.str (Z.of_nat k) +:+ " + "
                      +:+ Py.str (Z.of_nat (r + f) - Z.of_nat k))
                   yml_name
     | Crashed e _ => e = UnboundLocalError "publisher"
     | NoInput _ => False
     end)
  ∧ (∀ pandoc author entry_str s,
       rendered pandoc entry_str = false →
       first_author_count (process_entry pandoc author entry_str s).2
       = first_author_count s)
  ∧ (let entries := split_entries (Sample.bib [Sample.e_broken; Sample.e_first]) in
     entries = [Sample.e_broken; Sample.e_first]
     ∧ Forall (λ e, Sample.lists_first "Stephens" e = true) entries
     ∧ failures Sample.pandoc entries = [Sample.e_broken]
     ∧ Sample.title_of (Sample.listing [Sample.e_broken; Sample.e_first])
       = Some "title: 'Publications (1 + 1)'"
     ∧ Sample.yml_of (Sample.listing [Sample.e_broken; Sample.e_first])
       = Some (map normalize_line Sample.lines_first
               ++ ["  type-title: '*Ocean Lett.*'"; "  date: 2021";
                   "  position: '1/2'"])).
Proof.
  split_and!.
  - intros pandoc author bib yml_name tmp. unfold create_pub_listing.
    destruct (for_entries _ _ _ _) as [[[]|e] s] eqn:E.
    + apply for_entries_Ok in E as (_ & _ & _ & Hc & _). simpl in Hc.
      simpl. rewrite Hc, rendered_or_failed.
      split_and!; [done | apply first_rendered_le | done].
    + by apply for_entries_Raise in E as [-> _].
  - intros pandoc author e s Hr. by rewrite process_entry_failed.
  - assert (split_entries (Sample.bib [Sample.e_broken; Sample.e_first])
            = [Sample.e_broken; Sample.e_first]) as Hent
      by (by vm_compute).
    cbv zeta. rewrite Hent. split_and!.
    + done.
    + each_line.
    + by vm_compute.
    + by vm_compute.
    + by vm_compute.
Qed.

(** C10 on the sample run of a rejected entry and a first-author article:
    the round of the rejected entry leaves the count at zero. *)
Lemma C10_total_counts_failed_witness :
  first_author_count
    (process_entry Sample.pandoc "Stephens" Sample.e_broken
       (State [] 0 None ∅ [])).2 = 0.
Proof.
  apply (proj1 (proj2 C10_total_counts_failed) Sample.pandoc "Stephens"
           Sample.e_broken (State [] 0 None ∅ [])).
  reflexivity.
Defined.

(** * Further properties of the code *)

(** ** Lines of the formatter's document *)

Section LineFacts.

Implicit Types (s t x : string) (ls : list string).

Lemma nobreak_app s t : nobreak (s +:+ t) = nobreak s && nobreak t.
Proof.
  induction s as [|c s IH]; simpl; [done|]. by rewrite IH, andb_assoc.
Qed.

Lemma splitlines_cons_line x rest :
  nobreak x = true →
  Py.splitlines (x +:+ String Py.LF rest) = x :: Py.splitlines rest.
Proof.
  induction x as [|c x IH]; simpl; [done|].
  intros [Hc Hx]%andb_true_iff. apply negb_true_iff in Hc.
  by rewrite Hc, IH.
Qed.

Lemma splitlines_unlines ls :
  Forall (λ x, nobreak x = true) ls → Py.splitlines (unlines ls) = ls.
Proof.
  induction 1 as [|x ls Hx _ IH]; simpl; [done|].
  by rewrite splitlines_cons_line, IH.
Qed.

Lemma join_unlines ls :
  ls ≠ [] → Py.join (String Py.LF "") ls +:+ String Py.LF "" = unlines ls.
Proof.
  induction ls as [|x ls IH]; [done|]. intros _.
  destruct ls as [|y ls]; [done|].
  rewrite join_cons by done. simpl unlines. simpl unlines in IH.
  rewrite <-IH by done. by rewrite !sapp_assoc.
Qed.

Lemma slice_framed {A} (h1 h2 h3 f1 f2 : A) (l : list A) :
  Py.slice_3_m2 ([h1; h2; h3] ++ l ++ [f1; f2]) = l.
Proof.
  unfold Py.slice_3_m2.
  assert ((length ([h1; h2; h3] ++ l ++ [f1; f2]) - 2)%nat
          = length ([h1; h2; h3] ++ l)) as ->
    by (rewrite !length_app; simpl; lia).
  rewrite (assoc_L (++) [h1; h2; h3] l [f1; f2]), take_app_length.
  reflexivity.
Qed.

End LineFacts.

(** X1.  The lines that reach the scan are the lines the formatter wrote
    between the three framing lines at the head of its document and the
    two at its tail: splitting the document at its line ends and cutting
    [3:-2] gives them back, whatever the framing lines are, as long as no
    line has a line boundary inside. *)
Theorem X1_framing_roundtrip (h1 h2 h3 f1 f2 : string) (lines : list string) :
  Forall (λ x, nobreak x = true) ([h1; h2; h3] ++ lines ++ [f1; f2]) →
  Py.slice_3_m2 (Py.splitlines (unlines ([h1; h2; h3] ++ lines ++ [f1; f2])))
  = lines.
Proof.
  intros H. rewrite splitlines_unlines by done. apply slice_framed.
Qed.

(** X1 on the document of the sample journal article. *)
Lemma X1_framing_roundtrip_witness :
  Py.slice_3_m2 (Py.splitlines (Sample.framed Sample.lines_journal))
  = Sample.lines_journal.
Proof.
  apply (X1_framing_roundtrip "---"
           ("nocite: " +:+ Sample.dq +:+ "[@*]" +:+ Sample.dq)
           "references:" "---" "" Sample.lines_journal).
  unfold Sample.lines_journal. simpl app.
  each_line.
Defined.

(** X2.  An entry that the formatter accepts with a document of five lines
    or fewer (an empty one, say) still gets a record: the scan has no line
    to read, and the round appends the single line of the position
    "N/A/0", leaving the counter, the publisher and the console as they
    are. *)
Theorem X2_short_output (pandoc : option string → completed_process)
    (author entry_str : string) (s : state) :
  rendered pandoc entry_str = true →
  (length (Py.splitlines (stdout (pandoc (Some entry_str)))) ≤ 5)%nat →
  process_entry pandoc author entry_str s
  = (Ok (),
     State (all_articles_yaml_lines s ++ ["  position: 'N/A/0'"])
           (first_author_count s) (publisher_var s) (scratch s) (console s)).
Proof.
  intros Hr Hlen.
  assert (entry_lines pandoc entry_str = []) as Hl.
  { unfold entry_lines, Py.slice_3_m2. apply drop_ge.
    rewrite length_take. lia. }
  assert (scan (entry_lines pandoc entry_str) (publisher_var s)
          = Ok (Locals [] (publisher_var s) "" "" "" "" [])) as Hs
    by (by rewrite Hl).
  rewrite (process_entry_rendered _ _ _ _ _ Hr Hs). reflexivity.
Qed.

(** X2 on a formatter that writes nothing. *)
Lemma X2_short_output_witness :
  process_entry silent_pandoc "Stephens" Sample.e_first (State [] 0 None ∅ [])
  = (Ok (), State ["  position: 'N/A/0'"] 0 None ∅ []).
Proof.
  apply (X2_short_output silent_pandoc "Stephens" Sample.e_first
           (State [] 0 None ∅ [])).
  - reflexivity.
  - simpl. lia.
Defined.

(** ** The data file reads back *)

Section NobreakFacts.

Implicit Types (s t x line : string) (l : locals).

Lemma splitlines_nobreak s : Forall (λ x, nobreak x = true) (Py.splitlines s).
Proof.
  remember (String.length s) as n eqn:Hn. revert s Hn.
  induction (lt_wf n) as [n _ IH]. intros s ->.
  destruct s as [|c rest]; [constructor|].
  assert (Forall (λ x, nobreak x = true) (Py.splitlines rest)) as Hrest
    by (apply (IH (String.length rest)); [simpl; lia | done]).
  simpl. destruct (Py.islinebreak c) eqn:Hc.
  - destruct (Ascii.eqb c Py.CR); [|by constructor].
    destruct rest as [|c' rest']; [by constructor|].
    destruct (Ascii.eqb c' Py.LF); [|by constructor].
    constructor; [done|].
    apply (IH (String.length rest')); [simpl; lia | done].
  - destruct (Py.splitlines rest) as [|x ls].
    + constructor; [|done]. simpl. by rewrite Hc.
    + apply Forall_cons in Hrest as [Hx Hls].
      constructor; [|done]. simpl. by rewrite Hc, Hx.
Qed.

Lemma nobreak_infix u s v :
  nobreak (u +:+ s +:+ v) = true → nobreak s = true.
Proof.
  rewrite !nobreak_app. intros [_ [H _]%andb_true_iff]%andb_true_iff. done.
Qed.

Lemma nobreak_strip s : nobreak s = true → nobreak (Py.strip s) = true.
Proof.
  destruct (strip_infix s) as (u & v & H). rewrite H at 1.
  apply nobreak_infix.
Qed.

Lemma nobreak_value_of sep line :
  nobreak line = true → nobreak (value_of sep line) = true.
Proof.
  intros Hl. unfold value_of, Py.split1_snd.
  destruct (Py.cut sep line) as [[b a]|] eqn:E; simpl; [|done].
  apply nobreak_strip. apply cut_Some in E. rewrite E in Hl.
  rewrite !nobreak_app in Hl.
  by apply andb_true_iff in Hl as [_ [_ Ha]%andb_true_iff].
Qed.

Lemma nobreak_uint d : nobreak (NilEmpty.string_of_uint d) = true.
Proof. induction d; simpl; done. Qed.

Lemma nobreak_str z : nobreak (Py.str z) = true.
Proof.
  unfold Py.str, NilZero.string_of_int, NilZero.string_of_uint.
  destruct (Z.to_int z) as [d|d]; destruct d; simpl;
    by rewrite ?nobreak_uint.
Qed.

Lemma nobreak_normalize_line x :
  nobreak x = true → nobreak (normalize_line x) = true.
Proof.
  intros Hx. unfold normalize_line.
  destruct (declared_category x); [|done]. by repeat case_match.
Qed.

Lemma nobreak_position_line author (auths : list string) :
  nobreak (position_line author auths) = true.
Proof.
  unfold position_line, rank.
  destruct (Py.index author auths); by rewrite !nobreak_app, !nobreak_str.
Qed.

(** The body of the loop keeps line boundaries out of the variables. *)
Lemma scan_line_nobreak idx line l l' :
  nobreak line = true → locals_nobreak l →
  scan_line idx line l = Ok l' → locals_nobreak l'.
Proof.
  intros Hline (Ha & Hp & Hc & Hi & Hd & Hu & Hl).
  pose proof (nobreak_value_of ":" line Hline) as Hv.
  pose proof (nobreak_value_of "family:" line Hline) as Hf.
  rewrite scan_line_kind.
  destruct (line_kind line); try (intros [= <-]; unfold locals_nobreak; simpl;
    split_and!; try done).
  - apply Forall_app. split; [done|]. by constructor.
  - by intros p [= <-].
  - destruct (String.eqb (value_of ":" line) "book").
    + destruct (publisher l) as [p|] eqn:Ep; [|done].
      intros [= <-]. unfold locals_nobreak. simpl. split_and!; try done.
      * intros q Hq. rewrite Ep in Hq. by apply Hp.
      * by apply Hp.
      * by apply Forall_insert.
    + destruct (String.eqb (value_of ":" line) "article-journal").
      * intros [= <-]. unfold locals_nobreak. simpl. split_and!; try done.
        by apply Forall_insert.
      * by intros [= <-].
Qed.

Lemma scan_list_nobreak idx (lines : list string) l l' :
  Forall (λ x, nobreak x = true) lines → locals_nobreak l →
  scan_list idx lines l = Ok l' → locals_nobreak l'.
Proof.
  intros Hall. revert idx l.
  induction Hall as [|x lines Hx _ IH]; intros idx l Hl; simpl.
  - by intros [= <-].
  - destruct (scan_line idx x l) as [l1|e] eqn:E; simpl; [|done].
    apply IH. by eapply scan_line_nobreak.
Qed.

Lemma entry_group_nobreak author l :
  locals_nobreak l → Forall (λ x, nobreak x = true) (entry_group author l).
Proof.
  intros (Ha & Hp & Hc & Hi & Hd & Hu & Hl).
  unfold entry_group, type_title_line, date_line, doi_line, url_line.
  repeat (apply Forall_app; split); try done.
  - case_match; [|done]. constructor; [|done].
    by rewrite !nobreak_app, Hc.
  - case_match; [|done]. constructor; [|done]. by rewrite !nobreak_app, Hi.
  - case_match; [|done]. constructor; [|done]. by rewrite !nobreak_app, Hd.
  - case_match; [|done]. constructor; [|done]. by rewrite !nobreak_app, Hu.
  - constructor; [apply nobreak_position_line | done].
Qed.

Lemma entry_lines_nobreak pandoc e :
  Forall (λ x, nobreak x = true) (entry_lines pandoc e).
Proof.
  unfold entry_lines, Py.slice_3_m2.
  apply Forall_drop, Forall_take, splitlines_nobreak.
Qed.

(** The loop over the entries keeps line boundaries out of the lines it
    gathers. *)
Lemma for_entries_nobreak pandoc author (entries : list string)
    (s s' : state) :
  Forall (λ x, nobreak x = true) (all_articles_yaml_lines s) →
  (∀ p, publisher_var s = Some p → nobreak p = true) →
  for_entries pandoc author entries s = (Ok (), s') →
  Forall (λ x, nobreak x = true) (all_articles_yaml_lines s').
Proof.
  revert s. induction entries as [|e entries IH]; intros s Hall Hp; simpl.
  - by intros [= <-].
  - destruct (rendered pandoc e) eqn:Hr.
    + destruct (scan (entry_lines pandoc e) (publisher_var s))
        as [l|err] eqn:Hs.
      * rewrite (process_entry_rendered _ _ _ _ _ Hr Hs).
        rewrite scan_scan_list in Hs.
        apply scan_list_nobreak in Hs as Hl;
          [|apply entry_lines_nobreak|].
        -- apply IH; simpl.
           ++ apply Forall_app. split; [done|].
              by apply entry_group_nobreak.
           ++ by destruct Hl as (_ & Hpl & _).
        -- unfold locals_nobreak. simpl.
           split_and!; try done. apply entry_lines_nobreak.
      * by rewrite (process_entry_raised _ _ _ _ _ Hr Hs).
    + rewrite (process_entry_failed _ _ _ _ Hr). by apply IH.
Qed.

End NobreakFacts.

(** X3.  The data file reads back as the lines the run gathered.  In every
    run that writes its output, splitting the data file at its line ends
    gives the gathered lines, one for one and in order; and when no entry
    was rendered the data file is a single line end, which reads back as
    one empty line.  No field value can break a line: the values come from
    lines of the formatter's document. *)
Theorem X3_data_file_reads_back
    (pandoc : option string → completed_process)
    (author bib yml_name : string) (tmp : gmap nat string) :
  match create_pub_listing pandoc author (Some bib) yml_name tmp with
  | Finished yml _ s =>
      Py.splitlines yml
      = (if decide (all_articles_yaml_lines s = []) then [""]
         else all_articles_yaml_lines s)
      ∧ (all_articles_yaml_lines s = [] ↔
         Forall (λ e, rendered pandoc e = false) (split_entries bib))
  | _ => True
  end.
Proof.
  unfold create_pub_listing.
  destruct (for_entries _ _ _ _) as [[[]|e] s] eqn:E; [|done].
  simpl. split.
  - apply for_entries_nobreak in E; [|done..]. case_decide as Hnil.
    + by rewrite Hnil.
    + rewrite join_unlines by done. by apply splitlines_unlines.
  - apply for_entries_Ok in E as (groups & Hall & Hg & _). simpl in Hall.
    rewrite Hall. clear Hall. split.
    + intros Hnil. apply Forall_forall. intros e He.
      destruct (rendered pandoc e) eqn:Hr; [|done]. exfalso.
      assert (e ∈ filter (λ e, rendered pandoc e = true) (split_entries bib))
        as Hin by (by apply list_elem_of_filter).
      destruct Hg as [|g e' gs es (pub & l & _ & ->) _];
        [by apply not_elem_of_nil in Hin|].
      simpl in Hnil. apply app_eq_nil in Hnil as [Hnil _].
      unfold entry_group in Hnil.
      repeat (apply app_eq_nil in Hnil as [_ Hnil]). done.
    + intros Hfail.
      assert (filter (λ e, rendered pandoc e = true) (split_entries bib) = [])
        as Hnone.
      { clear Hg. induction Hfail as [|e es He _ IH]; [done|].
        rewrite filter_cons_False by (by rewrite He). apply IH. }
      rewrite Hnone in Hg. by apply Forall2_nil_inv_r in Hg as ->.
Qed.

(** ** When the scan of an entry stops *)

Lemma scan_Raise_iff (lines : list string) (pub : option string) (e : exn) :
  scan lines pub = Raise e ↔
  e = UnboundLocalError "publisher" ∧ pub = None
  ∧ ∃ pre tl post,
      lines = pre ++ tl :: post ∧ book_line tl = true
      ∧ Forall (λ x, line_kind x ≠ KPublisher) pre.
Proof.
  rewrite scan_scan_list. split.
  - intros (-> & pre & tl & post & -> & Hb & Hp)%scan_list_Raise.
    simpl in Hp. apply publisher_after_None in Hp as [-> Hpre].
    split_and!; [done | done |]. by exists pre, tl, post.
  - intros (-> & -> & pre & tl & post & -> & Hb & Hpre).
    apply scan_list_unbound; [done|]. simpl. by apply publisher_after_None.
Qed.

(** X4.  The scan of an entry's lines raises exactly when no publisher was
    bound before the entry and some line declares the category "book"
    with no publisher line before it; the exception is then the unbound
    [publisher].  Nothing else in the scan raises: not the [[1]] after a
    split, whatever the lines are. *)
Theorem X4_scan_abort_condition (lines : list string) (pub : option string)
    (e : exn) :
  scan lines pub = Raise e ↔
  e = UnboundLocalError "publisher" ∧ pub = None
  ∧ ∃ pre tl post,
      lines = pre ++ tl :: post ∧ book_line tl = true
      ∧ Forall (λ x, line_kind x ≠ KPublisher) pre.
Proof. apply scan_Raise_iff. Qed.

Lemma for_entries_Raise_inv pandoc author (entries : list string)
    (s s' : state) err :
  for_entries pandoc author entries s = (Raise err, s') →
  ∃ e pub, e ∈ entries ∧ rendered pandoc e = true
           ∧ scan (entry_lines pandoc e) pub = Raise err.
Proof.
  revert s. induction entries as [|e entries IH]; intros s; simpl; [done|].
  destruct (rendered pandoc e) eqn:Hr.
  - destruct (scan (entry_lines pandoc e) (publisher_var s))
      as [l|err'] eqn:Hs.
    + rewrite (process_entry_rendered _ _ _ _ _ Hr Hs).
      intros (e' & pub & Hin & ?)%IH. exists e', pub.
      split; [by apply elem_of_cons; right | done].
    + rewrite (process_entry_raised _ _ _ _ _ Hr Hs). intros [= <- <-].
      exists e, (publisher_var s). split; [by apply elem_of_cons; left | done].
  - rewrite (process_entry_failed _ _ _ _ Hr).
    intros (e' & pub & Hin & ?)%IH. exists e', pub.
    split; [by apply elem_of_cons; right | done].
Qed.

Lemma no_book_have_publisher (lines : list string) :
  Forall (λ x, book_line x = false) lines → books_have_publisher lines.
Proof.
  intros Hall pre tl post -> Hb.
  apply Forall_app in Hall as [_ [Htl _]%Forall_cons]. congruence.
Qed.

Lemma publisher_first_have_publisher (pre rest : list string) :
  Forall (λ x, book_line x = false) pre →
  Exists (λ x, line_kind x = KPublisher) pre →
  books_have_publisher (pre ++ rest).
Proof.
  intros Hnb Hpub pre' tl post Heq Hb.
  apply app_eq_inv in Heq as [(k & -> & Hk)|(k & -> & Hk)].
  - destruct k as [|x k].
    + by rewrite (right_id_L [] (++)) in Hpub.
    + simplify_eq/=. apply Forall_app in Hnb as [_ [Htl _]%Forall_cons].
      congruence.
  - apply Exists_app. by left.
Qed.

(** X5.  A bibliography in which every rendered entry has its "book"
    lines after a publisher line of its own is always processed to the
    end: both documents are written, whatever the other fields are and
    however many entries the formatter rejects. *)
Theorem X5_books_with_publisher_finish
    (pandoc : option string → completed_process)
    (author bib yml_name : string) (tmp : gmap nat string) :
  (∀ e, e ∈ split_entries bib → rendered pandoc e = true →
        books_have_publisher (entry_lines pandoc e)) →
  ∃ yml qmd s,
    create_pub_listing pandoc author (Some bib) yml_name tmp
    = Finished yml qmd s.
Proof.
  intros Hbooks. unfold create_pub_listing.
  destruct (for_entries _ _ _ _) as [[[]|err] s] eqn:E; [by eexists _, _, _|].
  apply for_entries_Raise_inv in E as (e & pub & Hin & Hr & Hs).
  apply scan_Raise_iff in Hs as (_ & _ & pre & tl & post & Hl & Hb & Hpre).
  pose proof (Hbooks e Hin Hr pre tl post Hl Hb) as Hex.
  apply Exists_exists in Hex as (x & Hx & Hk).
  rewrite Forall_forall in Hpre. by destruct (Hpre x Hx).
Qed.

(** X5 on the sample bibliography of the journal article, the ACM book and
    the entry that the formatter rejects. *)
Lemma X5_books_with_publisher_finish_witness :
  ∃ yml qmd s,
    Sample.listing [Sample.e_journal; Sample.e_book_acm; Sample.e_broken]
    = Finished yml qmd s.
Proof.
  apply (X5_books_with_publisher_finish Sample.pandoc "Stephens"
           (Sample.bib [Sample.e_journal; Sample.e_book_acm; Sample.e_broken])
           "publications.yml" ∅).
  assert (split_entries
            (Sample.bib [Sample.e_journal; Sample.e_book_acm; Sample.e_broken])
          = [Sample.e_journal; Sample.e_book_acm +:+ String Py.LF "";
             Sample.e_broken]) as ->.
  { vm_compute. reflexivity. }
  intros e He Hr.
  apply elem_of_cons in He as [->|He];
    [|apply elem_of_cons in He as [->|He];
      [|apply list_elem_of_singleton in He as ->]].
  - replace (entry_lines Sample.pandoc Sample.e_journal)
      with Sample.lines_journal by (by vm_compute).
    apply no_book_have_publisher. unfold Sample.lines_journal.
    each_line.
  - replace (entry_lines Sample.pandoc (Sample.e_book_acm +:+ String Py.LF ""))
      with (take 6 Sample.lines_book_acm ++ drop 6 Sample.lines_book_acm)
      by (by vm_compute).
    apply publisher_first_have_publisher; simpl.
    + each_line.
    + do 5 apply Exists_cons_tl. apply Exists_cons_hd. by vm_compute.
  - by vm_compute in Hr.
Defined.

(** ** What the scan extracts *)

Lemma line_kind_family (x : string) :
  line_kind x = KFamily ↔ Py.contains "- family:" x = true.
Proof.
  unfold line_kind. destruct (Py.contains "- family:" x); [done|].
  split; [|done]. by repeat case_match.
Qed.

Lemma families_length (lines : list string) :
  length (families lines)
  = length (filter (λ x, Py.contains "- family:" x = true) lines).
Proof.
  unfold families. induction lines as [|x lines IH]; [done|]. simpl.
  destruct (Py.contains "- family:" x) eqn:Hc.
  - rewrite filter_cons_True by done.
    rewrite decide_True by (by apply line_kind_family). simpl.
    f_equal. apply IH.
  - rewrite filter_cons_False by (by rewrite Hc).
    rewrite decide_False; [apply IH|]. rewrite line_kind_family. by rewrite Hc.
Qed.

(** X6.  The author list of a scanned entry has one name for every line
    that contains "- family:", in the order of the lines, each the
    stripped text after the first "family:" of its line.  So the total of
    the rank is the number of such lines: the family lines of editors or
    translators count as much as those of authors. *)
Theorem X6_author_list (lines : list string) (pub : option string)
    (l : locals) :
  scan lines pub = Ok l →
  authors l = families lines
  ∧ Py.len (authors l)
    = Z.of_nat (length (filter (λ x, Py.contains "- family:" x = true) lines)).
Proof.
  intros Hs. apply scan_authors in Hs as ->.
  split; [done|]. unfold Py.len. by rewrite families_length.
Qed.

(** X6 on the lines of the sample journal article. *)
Lemma X6_author_list_witness :
  authors (Locals ["Smith"; "Stephens"] None "J. Mar. Sci." "2020"
             "10.1000/j.1" "https://example.org/tides"
             (map normalize_line Sample.lines_journal))
  = families Sample.lines_journal.
Proof.
  apply (X6_author_list Sample.lines_journal None). by vm_compute.
Defined.

Lemma normalize_line_category (x : string) :
  declared_category (normalize_line x) ≠ Some "book"
  ∧ declared_category (normalize_line x) ≠ Some "article-journal".
Proof.
  unfold normalize_line. destruct (declared_category x) as [c|] eqn:Ec.
  - destruct (String.eqb_spec c "book") as [->|Hb]; [by vm_compute|].
    destruct (String.eqb_spec c "article-journal") as [->|Ha];
      [by vm_compute|].
    rewrite Ec. split; congruence.
  - by rewrite Ec.
Qed.

Lemma normalize_line_idemp (x : string) :
  normalize_line (normalize_line x) = normalize_line x.
Proof.
  destruct (normalize_line_category x) as [Hb Ha].
  unfold normalize_line at 1.
  destruct (declared_category (normalize_line x)) as [c|]; [|done].
  destruct (String.eqb_spec c "book") as [->|_]; [done|].
  by destruct (String.eqb_spec c "article-journal") as [->|_].
Qed.

(** X7.  The lines a scan leaves are as many as the entry's lines, none of
    them declares the category "book" or "article-journal" any more, and
    normalising them again changes nothing. *)
Theorem X7_normalized_lines (lines : list string) (pub : option string)
    (l : locals) :
  scan lines pub = Ok l →
  length (article_lines l) = length lines
  ∧ Forall (λ x, declared_category x ≠ Some "book"
                 ∧ declared_category x ≠ Some "article-journal")
      (article_lines l)
  ∧ map normalize_line (article_lines l) = article_lines l.
Proof.
  rewrite scan_scan_list. intros Hs.
  apply (scan_list_lines lines []) in Hs; [|done]. simpl in Hs. rewrite Hs.
  split_and!.
  - by rewrite length_map.
  - apply Forall_map, Forall_forall. intros x _.
    apply normalize_line_category.
  - rewrite <-list_fmap_compose. apply list_fmap_ext. intros i x _.
    apply normalize_line_idemp.
Qed.

(** X7 on the lines of the sample ACM book. *)
Lemma X7_normalized_lines_witness :
  length (map normalize_line Sample.lines_book_acm)
  = length Sample.lines_book_acm.
Proof.
  apply (X7_normalized_lines Sample.lines_book_acm None
           (Locals ["Lee"] (Some "ACM") "ACM" "2018" "" ""
              (map normalize_line Sample.lines_book_acm))).
  by vm_compute.
Defined.

Lemma scan_record_of (author : string) (lines : list string)
    (pub : option string) :
  Forall (λ x, book_line x = false) lines →
  entry_group author <$> scan lines pub = Ok (record_of author lines).
Proof.
  intros Hnb. rewrite scan_scan_list.
  destruct (scan_list_Ok 0 lines (Locals [] pub "" "" "" "" lines) Hnb)
    as [l Hs].
  rewrite Hs. simpl. f_equal.
  pose proof (scan_list_fields _ _ _ _ Hs) as (Ha & _ & Hi & Hd & Hu).
  pose proof (scan_list_venue_plain _ _ _ _ Hnb Hs) as Hv.
  pose proof (scan_list_lines lines [] (Locals [] pub "" "" "" "" lines) l
                eq_refl Hs) as Hl.
  simpl in *.
  unfold entry_group, record_of, type_title_line, date_line, doi_line,
    url_line, link_lines.
  rewrite Ha, Hi, Hd, Hu, Hv, Hl.
  by destruct (truthy (last_value KDoi lines "")),
              (truthy (last_value KUrl lines "")).
Qed.

(** X8.  The record of an entry that declares no "book" depends on the
    entry's lines alone, not on the entries before it: for every
    publisher left by earlier entries the scan ends, and the group is the
    normalised lines, the venue title of the last container-title line,
    the date of the last issued line, the links and the position. *)
Theorem X8_record_of_lines (author : string) (lines : list string)
    (pub : option string) :
  Forall (λ x, book_line x = false) lines →
  entry_group author <$> scan lines pub = Ok (record_of author lines).
Proof. apply scan_record_of. Qed.

(** X8 on the lines of the sample journal article, met after an entry
    that left the publisher ACM. *)
Lemma X8_record_of_lines_witness :
  entry_group "Stephens" <$> scan Sample.lines_journal (Some "ACM")
  = Ok (record_of "Stephens" Sample.lines_journal).
Proof.
  apply (X8_record_of_lines "Stephens" Sample.lines_journal (Some "ACM")).
  unfold Sample.lines_journal.
  each_line.
Defined.

(** ** What the run reports and carries along *)

Lemma filter_warning_app (xs ys : list message) :
  filter (λ m, is_warning m = true) (xs ++ ys)
  = filter (λ m, is_warning m = true) xs
    ++ filter (λ m, is_warning m = true) ys.
Proof. apply filter_app. Qed.

(** The loop logs one warning per rejected entry, in order, and carries
    the latest publisher of the rendered entries. *)
Lemma for_entries_trace pandoc author (entries : list string)
    (s s' : state) :
  for_entries pandoc author entries s = (Ok (), s') →
  filter (λ m, is_warning m = true) (console s')
  = filter (λ m, is_warning m = true) (console s)
    ++ map (λ e, MsgPandocFailed (stderr (pandoc (Some e))))
         (failures pandoc entries)
  ∧ publisher_var s'
    = publisher_after
        (concat (map (entry_lines pandoc)
                   (filter (λ e, rendered pandoc e = true) entries)))
        (publisher_var s).
Proof.
  unfold failures.
  revert s. induction entries as [|e entries IH]; intros s; simpl.
  - intros [= <-]. by rewrite (right_id_L [] (++)).
  - destruct (rendered pandoc e) eqn:Hr.
    + destruct (scan (entry_lines pandoc e) (publisher_var s))
        as [l|err] eqn:Hs.
      * rewrite (process_entry_rendered _ _ _ _ _ Hr Hs).
        intros [Hc Hp]%IH. simpl in Hc, Hp.
        rewrite (filter_cons_True (λ e, rendered pandoc e = true)) by done.
        rewrite (filter_cons_False (λ e, rendered pandoc e = false))
          by (by rewrite Hr).
        rewrite scan_scan_list in Hs.
        apply scan_list_fields in Hs as (_ & Hpub & _). simpl in Hpub.
        split.
        -- rewrite Hc. case_bool_decide; [|done].
           rewrite filter_warning_app.
           rewrite (filter_cons_False _ MsgHere) by done.
           by rewrite filter_nil, (right_id_L [] (++)).
        -- simpl. by rewrite publisher_after_app, <-Hpub.
      * by rewrite (process_entry_raised _ _ _ _ _ Hr Hs).
    + rewrite (process_entry_failed _ _ _ _ Hr).
      intros [Hc Hp]%IH. simpl in Hc, Hp.
      rewrite (filter_cons_False (λ e, rendered pandoc e = true))
        by (by rewrite Hr).
      rewrite (filter_cons_True (λ e, rendered pandoc e = false)) by done.
      split; [|done].
      rewrite Hc, filter_warning_app. simpl.
      by rewrite <-(assoc_L (++)).
Qed.

(** X9.  A run that writes its output has reported every rejected entry
    exactly once: the warnings on its console are those of the entries
    whose rendering failed, in the order of the bibliography, each with
    the error text of the formatter; and its last message is the
    confirmation. *)
Theorem X9_warnings_reported (pandoc : option string → completed_process)
    (author bib yml_name : string) (tmp : gmap nat string)
    (yml qmd : string) (s : state) :
  create_pub_listing pandoc author (Some bib) yml_name tmp
  = Finished yml qmd s →
  filter (λ m, is_warning m = true) (console s)
  = map (λ e, MsgPandocFailed (stderr (pandoc (Some e))))
      (failures pandoc (split_entries bib))
  ∧ last (console s) = Some MsgSuccess.
Proof.
  unfold create_pub_listing.
  destruct (for_entries _ _ _ _) as [[[]|err] s1] eqn:E; [|done].
  intros [= _ _ <-]. apply for_entries_trace in E as [Hc _]. simpl in *.
  split; [|apply last_snoc].
  rewrite filter_warning_app, Hc.
  rewrite (filter_cons_False _ MsgSuccess) by done.
  by rewrite filter_nil, (right_id_L [] (++)).
Qed.

(** X9 on the sample bibliography of a rendered article between two
    rejected entries. *)
Lemma X9_warnings_reported_witness :
  ∃ s,
    filter (λ m, is_warning m = true) (console s)
    = map (λ e, MsgPandocFailed (stderr (Sample.pandoc (Some e))))
        (failures Sample.pandoc
           (split_entries
              (Sample.bib [Sample.e_broken; Sample.e_first; Sample.e_broken])))
    ∧ length (console s) = 3%nat.
Proof.
  eexists. split.
  - refine (proj1 (X9_warnings_reported Sample.pandoc "Stephens"
              (Sample.bib [Sample.e_broken; Sample.e_first; Sample.e_broken])
              "publications.yml" ∅ _ _ _ _)).
    vm_compute. reflexivity.
  - reflexivity.
Defined.

(** X10.  The publisher outlives its entry.  After the loop has gone
    through some entries, the publisher that a later "book" without one
    would take is the value of the last publisher line among all the lines
    of the entries rendered so far, or what was bound before them when
    they have none; an entry that the formatter rejects neither sets nor
    resets it. *)
Theorem X10_publisher_carried (pandoc : option string → completed_process)
    (author : string) (entries : list string) (s s' : state) :
  for_entries pandoc author entries s = (Ok (), s') →
  publisher_var s'
  = publisher_after
      (concat (map (entry_lines pandoc)
                 (filter (λ e, rendered pandoc e = true) entries)))
      (publisher_var s).
Proof. by intros [_ Hp]%for_entries_trace. Qed.

(** X10 on the sample entries of the ACM book, a rejected entry and a
    journal article: the publisher left is ACM. *)
Lemma X10_publisher_carried_witness :
  publisher_var
    (for_entries Sample.pandoc "Stephens"
       [Sample.e_book_acm; Sample.e_broken; Sample.e_journal]
       (State [] 0 None ∅ [])).2
  = Some "ACM".
Proof.
  rewrite (X10_publisher_carried Sample.pandoc "Stephens"
             [Sample.e_book_acm; Sample.e_broken; Sample.e_journal]
             (State [] 0 None ∅ [])
             (for_entries Sample.pandoc "Stephens"
                [Sample.e_book_acm; Sample.e_broken; Sample.e_journal]
                (State [] 0 None ∅ [])).2).
  - by vm_compute.
  - by vm_compute.
Defined.

(** ** The entry point *)

(** X11.  The entry point runs the listing exactly when the version check
    of the formatter succeeds, and its handler fires only for that check.
    When the formatter is not found or its version check exits non-zero,
    nothing is processed and the two messages are printed.  When the check
    succeeds, the outcome is that of [create_pub_listing] and the handler
    prints nothing, whatever the run does: a run never ends on a
    CalledProcessError, so the unbound publisher of an aborted run leaves
    the script uncaught. *)
Theorem X11_main_handler (version : option completed_process)
    (pandoc : option string → completed_process) (bib : option string)
    (tmp : gmap nat string) :
  main version pandoc bib tmp
  = match version with
    | Some v =>
        if returncode v =? 0
        then (Some (create_pub_listing pandoc "Stephens" bib
                      "publications.yml" tmp), [])
        else (None, [MsgPandocMissing; MsgInstallHint])
    | None => (None, [MsgPandocMissing; MsgInstallHint])
    end.
Proof.
  unfold main. destruct version as [v|]; [|done].
  destruct (returncode v =? 0); [|done].
  destruct (create_pub_listing pandoc "Stephens" bib "publications.yml" tmp)
    as [c|yml qmd s|e s] eqn:E; [done | done |].
  destruct e as [rc err| |]; [|done..]. exfalso.
  unfold create_pub_listing in E. destruct bib as [bib_content|]; [|done].
  destruct (for_entries _ _ _ _) as [[[]|e'] s1] eqn:E'; [done|].
  apply for_entries_Raise in E' as [-> _]. by injection E.
Qed.

(** ** The definition document *)

(** X12.  The definition document of a finished run is made of the twenty
    lines of the template, as long as the name of the data file has no
    line boundary in it: read back line by line, its second line is the
    title with the statistic and its seventh the reference to the data
    file. *)
Theorem X12_definition_document
    (pandoc : option string → completed_process)
    (author bib yml_name : string) (tmp : gmap nat string)
    (yml qmd : string) (s : state) :
  nobreak yml_name = true →
  create_pub_listing pandoc author (Some bib) yml_name tmp
  = Finished yml qmd s →
  Py.splitlines qmd
  = [ "---";
      "title: 'Publications ("
        +:+ title_counts (first_author_count s) (Py.len (split_entries bib))
        +:+ ")'";
      "title-block-banner: true";
      "date-format: 'MMMM,<br>YYYY'";
      "listing:";
      "  contents:";
      "    - " +:+ yml_name;
      "  page-size: 10";
      "  sort: 'date desc'";
      "  type: table";
      "  categories: false";
      "  sort-ui: [date, title, type, type-title, position]";
      "  filter-ui: [date, title, type, type-title]";
      "  fields: [date, title, type, type-title, position]";
      "  field-display-names:";
      "    date: Date";
      "    type: Type";
      "    type-title: Type Name";
      "    position: Rank";
      "---" ].
Proof.
  intros Hname. unfold create_pub_listing.
  destruct (for_entries _ _ _ _) as [[[]|err] s1] eqn:E; [|done].
  intros [= _ <- <-]. simpl first_author_count.
  unfold qmd_template. apply splitlines_unlines.
  repeat first [ apply List.Forall_nil | apply List.Forall_cons ];
    try reflexivity.
  - unfold title_counts. by rewrite !nobreak_app, !nobreak_str.
  - by rewrite nobreak_app, Hname.
Qed.

(** X12 on the sample bibliography of two articles. *)
Lemma X12_definition_document_witness :
  match Sample.listing [Sample.e_journal; Sample.e_first] with
  | Finished _ qmd _ =>
      Py.splitlines qmd !! 6%nat = Some "    - publications.yml"
      ∧ Py.splitlines qmd !! 1%nat = Some "title: 'Publications (1 + 1)'"
  | _ => False
  end.
Proof.
  destruct (Sample.listing [Sample.e_journal; Sample.e_first])
    as [c|yml qmd s|e s] eqn:E; [by vm_compute in E| |by vm_compute in E].
  rewrite (X12_definition_document Sample.pandoc "Stephens"
             (Sample.bib [Sample.e_journal; Sample.e_first])
             "publications.yml" ∅ yml qmd s eq_refl E).
  split; [reflexivity|].
  vm_compute in E. injection E as _ _ <-. by vm_compute.
Defined.

(** ** A bibliography without books, end to end *)

Lemma for_entries_book_free pandoc author (entries : list string) (s : state) :
  (∀ e, e ∈ entries → rendered pandoc e = true →
        Forall (λ x, book_line x = false) (entry_lines pandoc e)) →
  ∃ s',
    for_entries pandoc author entries s = (Ok (), s')
    ∧ all_articles_yaml_lines s'
      = all_articles_yaml_lines s
        ++ concat (map (λ e, record_of author (entry_lines pandoc e))
                     (filter (λ e, rendered pandoc e = true) entries)).
Proof.
  revert s. induction entries as [|e entries IH]; intros s Hnb; simpl.
  - exists s. by rewrite (right_id_L [] (++)).
  - assert (∀ e', e' ∈ entries → rendered pandoc e' = true →
              Forall (λ x, book_line x = false) (entry_lines pandoc e'))
      as Hrest by (intros e' He'; apply Hnb; by apply elem_of_cons; right).
    destruct (rendered pandoc e) eqn:Hr.
    + pose proof (scan_record_of author (entry_lines pandoc e)
                    (publisher_var s)
                    (Hnb e (list_elem_of_here _ _) Hr)) as Hrec.
      destruct (scan (entry_lines pandoc e) (publisher_var s))
        as [l|err] eqn:Hs; [|done].
      injection Hrec as Hrec.
      rewrite (process_entry_rendered _ _ _ _ _ Hr Hs).
      destruct (IH (State (all_articles_yaml_lines s ++ entry_group author l)
                      (count_first author (authors l) (first_author_count s))
                      (publisher l) (scratch s)
                      (if bool_decide ("type:" ∈ article_lines l)
                       then console s ++ [MsgHere] else console s)) Hrest)
        as (s' & Hrun & Hall).
      exists s'. split; [done|]. rewrite Hall. simpl.
      rewrite filter_cons_True by done. simpl.
      by rewrite Hrec, <-(assoc_L (++)).
    + rewrite (process_entry_failed _ _ _ _ Hr).
      destruct (IH (print (MsgPandocFailed (stderr (pandoc (Some e)))) s)
                  Hrest) as (s' & Hrun & Hall).
      exists s'. split; [done|]. rewrite Hall. simpl.
      by rewrite filter_cons_False by (by rewrite Hr).
Qed.

(** X13.  A bibliography none of whose rendered entries declares a "book"
    is always processed to the end, and its data file is determined entry
    by entry: the gathered lines are the records of the rendered entries,
    in the order of the bibliography, each a function of the lines the
    formatter wrote for that entry and of nothing else. *)
Theorem X13_book_free_listing (pandoc : option string → completed_process)
    (author bib yml_name : string) (tmp : gmap nat string) :
  (∀ e, e ∈ split_entries bib → rendered pandoc e = true →
        Forall (λ x, book_line x = false) (entry_lines pandoc e)) →
  ∃ yml qmd s,
    create_pub_listing pandoc author (Some bib) yml_name tmp
    = Finished yml qmd s
    ∧ all_articles_yaml_lines s
      = concat (map (λ e, record_of author (entry_lines pandoc e))
                  (filter (λ e, rendered pandoc e = true)
                     (split_entries bib))).
Proof.
  intros Hnb. unfold create_pub_listing.
  destruct (for_entries_book_free pandoc author (split_entries bib)
              (State [] 0 None tmp []) Hnb) as (s' & -> & Hall).
  by eexists _, _, _.
Qed.

(** X13 on the sample bibliography of the two articles around an entry
    that the formatter rejects. *)
Lemma X13_book_free_listing_witness :
  ∃ yml qmd s,
    Sample.listing [Sample.e_journal; Sample.e_broken; Sample.e_first]
    = Finished yml qmd s
    ∧ all_articles_yaml_lines s
      = record_of "Stephens" Sample.lines_journal
        ++ record_of "Stephens" Sample.lines_first.
Proof.
  destruct (X13_book_free_listing Sample.pandoc "Stephens"
              (Sample.bib [Sample.e_journal; Sample.e_broken; Sample.e_first])
              "publications.yml" ∅) as (yml & qmd & s & Hrun & Hall).
  - assert (split_entries
              (Sample.bib [Sample.e_journal; Sample.e_broken; Sample.e_first])
            = [Sample.e_journal; Sample.e_broken +:+ String Py.LF "";
               Sample.e_first]) as -> by (by vm_compute).
    intros e He Hr.
    apply elem_of_cons in He as [->|He];
      [|apply elem_of_cons in He as [->|He];
        [|apply list_elem_of_singleton in He as ->]].
    + replace (entry_lines Sample.pandoc Sample.e_journal)
        with Sample.lines_journal by (by vm_compute).
      unfold Sample.lines_journal.
      each_line.
    + by vm_compute in Hr.
    + replace (entry_lines Sample.pandoc Sample.e_first)
        with Sample.lines_first by (by vm_compute).
      unfold Sample.lines_first.
      each_line.
  - exists yml, qmd, s. split; [done|]. rewrite Hall. by vm_compute.
Defined.

(** ** The rank, once more *)

Lemma str_first (z : Z) : ∃ c s, Py.str z = String c s ∧ c ≠ "N"%char.
Proof.
  unfold Py.str, NilZero.string_of_int, NilZero.string_of_uint.
  destruct (Z.to_int z) as [d|d]; destruct d; simpl; by eexists _, _.
Qed.

Lemma index_Some_lookup x (l : list string) i :
  Py.index x l = Some i → l !! i = Some x ∧ x ∉ take i l.
Proof.
  revert i. induction l as [|y l IH]; intros i; simpl; [done|].
  destruct (String.eqb_spec y x) as [->|Hne].
  - intros [= <-]. split; [done | apply not_elem_of_nil].
  - destruct (Py.index x l) as [j|] eqn:E; [|done].
    intros [= <-]. destruct (IH j eq_refl) as [Hj Hnot].
    split; [done|]. simpl. by apply not_elem_of_cons.
Qed.

(** X14.  The rank tells whether the target author was found.  It starts
    with "N/A/" exactly when the name is not in the author list; otherwise
    it is "p/t" for the position p of the first occurrence, which lies
    between 1 and the total t. *)
Theorem X14_rank_found (author : string) (authors : list string) :
  (Py.startswith "N/A/" (rank author authors) = true ↔ author ∉ authors)
  ∧ (author ∈ authors →
     ∃ i, authors !! i = Some author ∧ (author ∉ take i authors)
          ∧ 1 ≤ Z.of_nat i + 1 ∧ Z.of_nat i + 1 ≤ Py.len authors
          ∧ rank author authors
            = Py.str (Z.of_nat i + 1) +:+ "/" +:+ Py.str (Py.len authors)).
Proof.
  unfold rank. destruct (Py.index author authors) as [i|] eqn:E.
  - apply index_Some_lookup in E as [Hi Hnot].
    assert (author ∈ authors) as Hin by (by eapply list_elem_of_lookup_2).
    split.
    + destruct (str_first (Z.of_nat i + 1)) as (c & s & -> & Hc).
      split; [|done]. simpl. rewrite startswith_cons.
      by destruct (ascii_dec "N" c) as [<-|_].
    + intros _. exists i. split_and!; [done | done | lia | | done].
      apply lookup_lt_Some in Hi. unfold Py.len. lia.
  - assert (author ∉ authors) as Hnot.
    { intros [i Hi]%list_elem_of_lookup_1.
      clear -E Hi. revert i Hi.
      induction authors as [|y l IH]; intros i Hi; [done|].
      simpl in E. destruct (String.eqb_spec y author) as [->|Hne]; [done|].
      destruct (Py.index author l) eqn:E'; [done|].
      destruct i as [|i]; simplify_eq/=. by eapply IH. }
    split; [|done]. split; [done|]. intros _.
    apply startswith_spec. by eexists.
Qed.

(** X14 on the sample authors Smith, Stephens, Lee. *)
Lemma X14_rank_found_witness :
  ∃ i, ["Smith"; "Stephens"; "Lee"] !! i = Some "Stephens"
       ∧ ("Stephens" ∉ take i ["Smith"; "Stephens"; "Lee"])
       ∧ 1 ≤ Z.of_nat i + 1
       ∧ Z.of_nat i + 1 ≤ Py.len ["Smith"; "Stephens"; "Lee"]
       ∧ rank "Stephens" ["Smith"; "Stephens"; "Lee"]
         = Py.str (Z.of_nat i + 1) +:+ "/"
             +:+ Py.str (Py.len ["Smith"; "Stephens"; "Lee"]).
Proof.
  apply (proj2 (X14_rank_found "Stephens" ["Smith"; "Stephens"; "Lee"])).
  apply list_elem_of_further, list_elem_of_here.
Defined.
